(** * Plivo Browser SDK: the account connection and session lifecycle

    A shallow embedding of class [Account] (the SIP user-agent account:
    login validation, endpoint failover, the registration handlers and the
    admission of new RTC sessions) together with the properties its
    specification states about it.

    Conventions of the embedding.
    - A handler is a computation in the monad [M]: it reads and updates the
      [World] (the module variable [urlIndex] and the account with its
      client object), appends the calls it makes to its collaborators to a
      trace of [Effect]s, and completes normally or by throwing.  The world
      reached when an exception is thrown is kept, as in JavaScript.
    - Calls to the logger ([Plivo.log.debug/info/warn/error]) only write to
      the log and are left out; [Plivo.log.send] is kept as an effect.
    - Promises and timers are not run by the handlers: a handler records
      [FetchIPAddress k] or [SetTimeout d k], and the continuation [k] is a
      computation of its own that the environment runs later.
    - Strings are sequences of code units below 256. *)

From Stdlib Require Import ZArith List String Ascii Bool Lia Arith DecimalString.
Import ListNotations.

Local Open Scope string_scope.
Local Open Scope Z_scope.

(** ** JavaScript values *)

Module Js.

(** A value of type [string | null | undefined]. *)
Inductive value : Type :=
| Undefined
| Null
| Str (s : string).

(** A JavaScript number, as far as this development determines it: [NaN],
    an integer of magnitude at most 2^53 (exactly representable), or
    [NotModelled] for any other double (fractions, larger magnitudes,
    infinities), whose value is left open. *)
Inductive number : Type :=
| NaN
| Int (z : Z)
| NotModelled.

Definition MAX_EXACT : Z := 2 ^ 53.

Definition exact (z : Z) : number :=
  if Z.abs z <=? MAX_EXACT then Int z else NotModelled.

(** [x * 1000] on numbers. *)
Definition times (x : number) (k : Z) : number :=
  match x with
  | NaN => NaN
  | Int z => exact (z * k)
  | NotModelled => NotModelled
  end.

(** [x === k] for an integer literal [k] of small magnitude. *)
Definition strict_eq_int (x : number) (k : Z) : bool :=
  match x with
  | Int z => z =? k
  | NaN | NotModelled => false
  end.

(** [typeof x === 'undefined'] *)
Definition is_undefined (x : value) : bool :=
  match x with Undefined => true | _ => false end.

(** [x === null] *)
Definition is_null (x : value) : bool :=
  match x with Null => true | _ => false end.

(** String conversion inside a template literal. *)
Definition toString (x : value) : string :=
  match x with
  | Undefined => "undefined"
  | Null => "null"
  | Str s => s
  end.

(** [Number.prototype.toString] on an integer. *)
Definition int_toString (z : Z) : string :=
  NilZero.string_of_int (Z.to_int z).

(** Truthiness of a string: the empty string is falsy. *)
Definition truthy_string (s : string) : bool :=
  negb (String.eqb s "").

(** White space code units below 256: TAB, LF, VT, FF, CR, SP, NBSP. *)
Definition isWhiteSpace (c : ascii) : bool :=
  let n := nat_of_ascii c in
  ((9 <=? n) && (n <=? 13) || (n =? 32) || (n =? 160))%nat.

Definition isDigit (c : ascii) : bool :=
  let n := nat_of_ascii c in
  ((48 <=? n) && (n <=? 57))%nat.

Definition digit (c : ascii) : Z := Z.of_nat (nat_of_ascii c) - 48.

Fixpoint trimStart (s : string) : string :=
  match s with
  | EmptyString => EmptyString
  | String c r => if isWhiteSpace c then trimStart r else s
  end.

Fixpoint trimEnd (s : string) : string :=
  match s with
  | EmptyString => EmptyString
  | String c r =>
      match trimEnd r with
      | EmptyString => if isWhiteSpace c then EmptyString else String c EmptyString
      | r' => String c r'
      end
  end.

(** The value of a string made of decimal digits only, read left to
    right from the accumulator [acc]; [None] when another character
    occurs. *)
Fixpoint digitsValue (acc : Z) (s : string) : option Z :=
  match s with
  | EmptyString => Some acc
  | String c r =>
      if isDigit c then digitsValue (10 * acc + digit c) r else None
  end.

(** The value of the longest prefix of decimal digits, with the number
    of digits consumed. *)
Fixpoint digitPrefix (acc : Z) (n : nat) (s : string) : Z * nat :=
  match s with
  | EmptyString => (acc, n)
  | String c r =>
      if isDigit c then digitPrefix (10 * acc + digit c) (S n) r else (acc, n)
  end.

(** An optional sign: the sign factor and the rest of the string. *)
Definition sign (s : string) : Z * string :=
  match s with
  | String "-" r => (-1, r)
  | String "+" r => (1, r)
  | _ => (1, s)
  end.

(** [StringToNumber]: the conversion applied to a string operand of [*].
    Plain integers are exact; a string whose first character after the
    optional sign cannot start a numeric literal is [NaN]; every other
    form (fraction, exponent, radix prefix, [Infinity], or a literal
    followed by other text) is left [NotModelled]. *)
Definition StringToNumber (s : string) : number :=
  match trimEnd (trimStart s) with
  | EmptyString => Int 0
  | t =>
      let (sg, body) := sign t in
      match body with
      | EmptyString => NaN
      | String d _ =>
          if isDigit d then
            match digitsValue 0 body with
            | Some v => exact (sg * v)
            | None => NotModelled
            end
          else if (Ascii.eqb d "." || Ascii.eqb d "I")%bool then NotModelled
          else NaN
      end
  end.

(** [ToNumber] on [string | undefined]. *)
Definition ToNumber (x : value) : number :=
  match x with
  | Undefined => NaN
  | Null => Int 0
  | Str s => StringToNumber s
  end.

(** [parseInt(x, 10)]: leading white space, an optional sign, then the
    longest prefix of decimal digits; [NaN] when there is no digit. *)
Definition parseInt10 (x : value) : number :=
  let (sg, body) := sign (trimStart (toString x)) in
  match digitPrefix 0 0 body with
  | (_, O) => NaN
  | (v, S _) => exact (sg * v)
  end.

(** [s.split(sep)] for a separator of one character. *)
Fixpoint split (sep : ascii) (s : string) : list string :=
  match s with
  | EmptyString => [EmptyString]
  | String c r =>
      if Ascii.eqb c sep then EmptyString :: split sep r
      else match split sep r with
           | [] => [String c EmptyString]
           | piece :: pieces => String c piece :: pieces
           end
  end.

(** [a[i]] on an array of strings: [undefined] out of range. *)
Definition index (a : list string) (i : nat) : value :=
  match nth_error a i with
  | Some s => Str s
  | None => Undefined
  end.

End Js.

(** ** Data model *)

(** [ConnectionState], with [Unset] for the initial empty string. *)
Inductive ConnectionState : Type :=
| Unset
| CONNECTED
| DISCONNECTED.

Record ConnectionInfo : Type := mkConnectionInfo {
  state : ConnectionState;
  reason : string
}.

Record RTCPeerConnection : Type := { signalingState : string }.

(** The SIP library's session object, as far as the account reads it:
    [connection] may be absent, [isEnded] is the result of [isEnded()]. *)
Record RTCSession : Type := {
  connection : option RTCPeerConnection;
  isEnded : bool
}.

Module CallSession.
Record t : Type := make {
  callUUID : string;
  session : RTCSession
}.
End CallSession.

(** [options.registrationDomainSocket]: absent, one comma-separated
    string, or an array. *)
Inductive RegistrationDomainSocket : Type :=
| NoDomainSocket
| DomainSocketString (s : string)
| DomainSocketArray (l : list string).

Record Options : Type := {
  allowMultipleIncomingCalls : bool;
  registrationDomainSocket : RegistrationDomainSocket
}.

Record HTMLAudioElement : Type := { paused : bool }.

(** Handles of objects owned by collaborators; only their presence and
    identity matter here. *)
Definition UA : Type := nat.
Definition Callback : Type := nat.
Definition Timer : Type := nat.
Definition StatsSocket : Type := nat.

(** [new SipLib.WebSocketInterface(url)]: [url] is [wsServers[urlIndex]],
    [undefined] when the index is out of range. *)
Record WebSocketInterface : Type := { url : Js.value }.

(** The pending inbound invites: a [Map] from call identifier to call
    session, as its entries in insertion order. *)
Definition InviteMap : Type := list (string * CallSession.t).

Record Client : Type := mkClient {
  _currentSession : option CallSession.t;
  callSession : option CallSession.t;
  callUUID : option string;
  callDirection : option string;
  incomingInvites : InviteMap;
  options : Options;
  phone : option UA;
  plivoSocket : option WebSocketInterface;
  loginCallback : option Callback;
  connectionInfo : ConnectionInfo;
  isLoggedIn : bool;
  isLoginCalled : bool;
  isLogoutCalled : bool;
  isAccessToken : bool;
  isAccessTokenGenerator : bool;
  isCallMuted : bool;
  userName : Js.value;
  password : Js.value;
  accessToken : Js.value;
  networkChangeInterval : option Timer;
  statsSocket : option StatsSocket;
  noiseSuppresion : bool;
  ringToneView : option HTMLAudioElement;
  ringBackToneView : option HTMLAudioElement;
  networkDisconnectedTimestamp : option Z;
  networkReconnectionTimestamp : option Z;
  mediaSetup_init : option Z
}.

Module Credentials.
Record t : Type := make {
  userName : Js.value;
  password : Js.value
}.
End Credentials.

Record Account : Type := mkAccount {
  cs : Client;
  isPlivoSocketConnected : bool;
  message : option nat;
  registerRefreshTimer : Z;
  credentials : Credentials.t;
  accessTokenCredentials : Js.value;
  fetchIpCount : Z;
  reinviteCounter : Z
}.

(** The module variable [urlIndex] and the account. *)
Record World : Type := mkWorld {
  urlIndex : nat;
  this : Account
}.

(** *** Field updates *)

Definition Client_eta (c : Client) : Client :=
  mkClient (_currentSession c) (callSession c) (callUUID c) (callDirection c)
    (incomingInvites c) (options c) (phone c) (plivoSocket c) (loginCallback c)
    (connectionInfo c) (isLoggedIn c) (isLoginCalled c) (isLogoutCalled c)
    (isAccessToken c) (isAccessTokenGenerator c) (isCallMuted c) (userName c)
    (password c) (accessToken c) (networkChangeInterval c) (statsSocket c)
    (noiseSuppresion c) (ringToneView c) (ringBackToneView c)
    (networkDisconnectedTimestamp c) (networkReconnectionTimestamp c)
    (mediaSetup_init c).

Definition Account_eta (a : Account) : Account :=
  mkAccount (cs a) (isPlivoSocketConnected a) (message a) (registerRefreshTimer a)
    (credentials a) (accessTokenCredentials a) (fetchIpCount a) (reinviteCounter a).

(** [field_update eta proj] builds [fun v r => r with proj := v] from the
    eta-expansion of the record. *)
Ltac field_update eta proj :=
  let v := fresh "v" in
  let r := fresh "r" in
  intros v r;
  let e := eval cbv beta delta [eta] in (eta r) in
  match eval pattern (proj r) in e with
  | ?f _ => let t := eval cbv beta in (f v) in exact t
  end.

Definition set__currentSession : option CallSession.t -> Client -> Client.
Proof. field_update Client_eta _currentSession. Defined.

Definition set_callSession : option CallSession.t -> Client -> Client.
Proof. field_update Client_eta callSession. Defined.

Definition set_callUUID : option string -> Client -> Client.
Proof. field_update Client_eta callUUID. Defined.

Definition set_callDirection : option string -> Client -> Client.
Proof. field_update Client_eta callDirection. Defined.

Definition set_incomingInvites : InviteMap -> Client -> Client.
Proof. field_update Client_eta incomingInvites. Defined.

Definition set_phone : option UA -> Client -> Client.
Proof. field_update Client_eta phone. Defined.

Definition set_plivoSocket : option WebSocketInterface -> Client -> Client.
Proof. field_update Client_eta plivoSocket. Defined.

Definition set_loginCallback : option Callback -> Client -> Client.
Proof. field_update Client_eta loginCallback. Defined.

Definition set_connectionInfo : ConnectionInfo -> Client -> Client.
Proof. field_update Client_eta connectionInfo. Defined.

Definition set_isLoggedIn : bool -> Client -> Client.
Proof. field_update Client_eta isLoggedIn. Defined.

Definition set_isLoginCalled : bool -> Client -> Client.
Proof. field_update Client_eta isLoginCalled. Defined.

Definition set_isLogoutCalled : bool -> Client -> Client.
Proof. field_update Client_eta isLogoutCalled. Defined.

Definition set_isAccessToken : bool -> Client -> Client.
Proof. field_update Client_eta isAccessToken. Defined.

Definition set_userName : Js.value -> Client -> Client.
Proof. field_update Client_eta userName. Defined.

Definition set_password : Js.value -> Client -> Client.
Proof. field_update Client_eta password. Defined.

Definition set_networkChangeInterval : option Timer -> Client -> Client.
Proof. field_update Client_eta networkChangeInterval. Defined.

Definition set_statsSocket : option StatsSocket -> Client -> Client.
Proof. field_update Client_eta statsSocket. Defined.

Definition set_noiseSuppresion : bool -> Client -> Client.
Proof. field_update Client_eta noiseSuppresion. Defined.

Definition set_networkDisconnectedTimestamp : option Z -> Client -> Client.
Proof. field_update Client_eta networkDisconnectedTimestamp. Defined.

Definition set_networkReconnectionTimestamp : option Z -> Client -> Client.
Proof. field_update Client_eta networkReconnectionTimestamp. Defined.

Definition set_mediaSetup_init : option Z -> Client -> Client.
Proof. field_update Client_eta mediaSetup_init. Defined.

Definition set_cs : Client -> Account -> Account.
Proof. field_update Account_eta cs. Defined.

Definition set_isPlivoSocketConnected : bool -> Account -> Account.
Proof. field_update Account_eta isPlivoSocketConnected. Defined.

Definition set_message : option nat -> Account -> Account.
Proof. field_update Account_eta message. Defined.

Definition set_fetchIpCount : Z -> Account -> Account.
Proof. field_update Account_eta fetchIpCount. Defined.

Definition set_reinviteCounter : Z -> Account -> Account.
Proof. field_update Account_eta reinviteCounter. Defined.

(** ** Events, configuration and effects *)

Module SipConfig.
Record t : Type := make {
  sockets : list WebSocketInterface;
  register_expires : Z;
  uri : string;
  password : Js.value;
  token : Js.value;
  googIPv6 : bool;
  connection_recovery_max_interval : Z;
  connection_recovery_min_interval : Z;
  session_timers : bool;
  user_agent : string
}.
End SipConfig.

(** The payload of [disconnected]: [code] may be absent; [reason] and
    [socket.url] are only logged. *)
Module DisconnectedEvent.
Record t : Type := make {
  code : option Z;
  ignoreReconnection : bool
}.
End DisconnectedEvent.

(** A SIP response: each header name maps to the array of its values. *)
Record Header : Type := { raw : string }.

Definition Headers : Type := list (string * list Header).

Fixpoint getHeader (name : string) (h : Headers) : option (list Header) :=
  match h with
  | [] => None
  | (n, v) :: rest => if String.eqb n name then Some v else getHeader name rest
  end.

Record Response : Type := { headers : Headers }.

Module RegisteredEvent.
Record t : Type := make { response : Response }.
End RegisteredEvent.

Module RegistrationFailedEvent.
Record t : Type := make {
  cause : option string;
  response : option Response
}.
End RegistrationFailedEvent.

Inductive Originator : Type :=
| local
| remote
| system.

Module NewRTCSessionEvent.
Record t : Type := make {
  originator : Originator;
  call_id : string
}.
End NewRTCSessionEvent.

(** Notifications emitted to the host application with [cs.emit]. *)
Inductive Notification : Type :=
| onLoginFailed (why : string)
| onConnectionChange (info : ConnectionInfo)
| onLogin
| onLogout.

(** Work deferred with [setTimeout]. *)
Inductive Task : Type :=
| ReinviteTask
| NetworkChangeRetry.

(** What is done with the result of [fetchIPAddress]. *)
Inductive IpContinuation : Type :=
| IdleNetworkChange
| NetworkChangeEvent.

Inductive Effect : Type :=
| Emit (n : Notification)
| Phone_stop
| Phone_start
| Phone_createNewUATransport (cfg : SipConfig.t)
| NewWebSocketInterface (address : Js.value)
| InvokeLoginCallback (cb : Callback)
| SocketReconnectionRetry
| Session_replaceUA (ua : UA)
| Session_sendReinvite (iceRestart : bool)
| SetTimeout (task : Task) (delay : Z)
| StartSpeechRecognition
| SetExpiryTimeInEpoch (ms : Js.number)
| ClearInterval (t : option Timer)
| StartPingPong (interval messageCheckTimeout : Z)
| FetchIPAddress (k : IpContinuation)
| StatsSocket_disconnect
| NewStatsSocket
| StatsSocket_connect
| NewNoiseSuppression
| ValidateCallStats (user passToken : Js.value) (isToken : bool)
| InitCallStatsIO
| LogSend
| StopAudio (id : string)
| ClearOnLogout
| SetSipCallID (id : string)
| CreateStatsSocket
| Session_terminate (status_code : Z) (reason_phrase : string)
| AddMidAttribute
| CreateIncomingSession
| CreateOutgoingSession
| SendNetworkChangeEvent (ip : string).

(** The constants of [../constants] and of [package.json] that the
    account reads; their values are not part of these sources. *)
Record Constants : Type := {
  WS_SERVERS : list string;
  DOMAIN : string;
  WS_RECOVERY_MAX_INTERVAL : Z;
  WS_RECOVERY_MIN_INTERVAL : Z;
  IP_ADDRESS_FETCH_RETRY_COUNT : Z;
  NETWORK_CHANGE_INTERVAL_ON_CALL_STATE : Z;
  NETWORK_CHANGE_INTERVAL_IDLE_STATE : Z;
  MESSAGE_CHECK_TIMEOUT_ON_CALL_STATE : Z;
  NUMBER_OF_SIMULTANEOUS_INCOMING_CALLS_ALLOWED : Z;
  RINGTONE_ELEMENT_ID : string;
  RINGBACK_ELEMENT_ID : string;
  pkg_name : string;
  pkg_version : string
}.

(** ** The monad of handlers *)

Inductive Error : Type :=
| TypeError (msg : string).

Inductive Completion (A : Type) : Type :=
| Normal (a : A)
| Throw (e : Error).

Arguments Normal {A} a.
Arguments Throw {A} e.

Record Outcome (A : Type) : Type := mkOutcome {
  completion : Completion A;
  world : World;
  effects : list Effect
}.

Arguments mkOutcome {A} _ _ _.
Arguments completion {A} _.
Arguments world {A} _.
Arguments effects {A} _.

Definition M (A : Type) : Type := World -> Outcome A.

Definition ret {A : Type} (a : A) : M A :=
  fun w => mkOutcome (Normal a) w [].

Definition bind {A B : Type} (m : M A) (f : A -> M B) : M B :=
  fun w =>
    match m w with
    | mkOutcome (Normal a) w1 e1 =>
        match f a w1 with
        | mkOutcome k w2 e2 => mkOutcome k w2 (e1 ++ e2)
        end
    | mkOutcome (Throw e) w1 e1 => mkOutcome (Throw e) w1 e1
    end.

Declare Scope handler_scope.
Delimit Scope handler_scope with handler.
Bind Scope handler_scope with M.

Notation "x <- m ;; k" := (bind m (fun x => k))
  (at level 61, m at next level, right associativity) : handler_scope.
Notation "m ;; k" := (bind m (fun _ => k))
  (at level 61, right associativity) : handler_scope.

Local Open Scope handler_scope.

Definition throw {A : Type} (e : Error) : M A :=
  fun w => mkOutcome (Throw e) w [].

Definition call (e : Effect) : M unit :=
  fun w => mkOutcome (Normal tt) w [e].

Definition getThis : M Account :=
  fun w => mkOutcome (Normal (this w)) w [].

Definition getCs : M Client :=
  fun w => mkOutcome (Normal (cs (this w))) w [].

Definition getUrlIndex : M nat :=
  fun w => mkOutcome (Normal (urlIndex w)) w [].

Definition setUrlIndex (i : nat) : M unit :=
  fun w => mkOutcome (Normal tt) (mkWorld i (this w)) [].

Definition modifyThis (f : Account -> Account) : M unit :=
  fun w => mkOutcome (Normal tt) (mkWorld (urlIndex w) (f (this w))) [].

Definition modifyCs (f : Client -> Client) : M unit :=
  modifyThis (fun a => set_cs (f (cs a)) a).

Definition when (b : bool) (m : M unit) : M unit :=
  if b then m else ret tt.

Definition emit (n : Notification) : M unit := call (Emit n).

Definition ConnectionState_eqb (a b : ConnectionState) : bool :=
  match a, b with
  | Unset, Unset | CONNECTED, CONNECTED | DISCONNECTED, DISCONNECTED => true
  | _, _ => false
  end.

Definition isSome {A : Type} (o : option A) : bool :=
  match o with Some _ => true | None => false end.

(** Handlers run one after the other; an exception ends the handler that
    threw it, not the ones after it. *)
Fixpoint sequence (hs : list (M unit)) : M unit :=
  match hs with
  | [] => ret tt
  | h :: rest =>
      fun w =>
        match h w with
        | mkOutcome _ w1 e1 =>
            match sequence rest w1 with
            | mkOutcome k w2 e2 => mkOutcome k w2 (e1 ++ e2)
            end
        end
  end.

(** ** The account's methods *)

Section Account.

Variable C : Constants.

(** [client.getErrorStringByErrorCodes], a method of the client object. *)
Variable getErrorStringByErrorCodes : Js.number -> string.

(** [_validate(callback)].  [onLine] is [navigator.onLine].  The result
    is [false], [true], or the queued callback. *)
Inductive ValidateResult : Type :=
| Invalid
| Valid
| Deferred (cb : option Callback).

(** The first condition of [_validate], with JavaScript's evaluation
    order: [password.length] is only reached when [password === null]
    and [userName.length > 0], where it throws. *)
Definition credentialsMissing (cr : Credentials.t) : Completion bool :=
  if Js.is_undefined (Credentials.userName cr) then Normal true
  else if Js.is_undefined (Credentials.password cr) then Normal true
  else
    match Credentials.userName cr with
    | Js.Undefined | Js.Null => Normal true
    | Js.Str u =>
        if Js.is_null (Credentials.password cr) then
          if (Z.of_nat (String.length u) <=? 0) then Normal true
          else Throw (TypeError "Cannot read properties of null (reading 'length')")
        else Normal false
    end.

Definition _validate (callback : Callback) (onLine : bool) : M ValidateResult :=
  a <- getThis ;;
  match credentialsMissing (credentials a) with
  | Throw e => throw e
  | Normal true =>
      emit (onLoginFailed "Username and password must be filled out") ;;
      ret Invalid
  | Normal false =>
      c <- getCs ;;
      if isSome (_currentSession c) then
        emit (onLoginFailed "Cannot login when there is an ongoing call") ;;
        ret Invalid
      else if negb onLine then
        emit (onLoginFailed "Cannot login when there is no internet") ;;
        ret Invalid
      else if isSome (phone c) then
        modifyCs (set_loginCallback (Some callback)) ;;
        call Phone_stop ;;
        modifyCs (set_connectionInfo (mkConnectionInfo DISCONNECTED "Relogin")) ;;
        c' <- getCs ;;
        ret (Deferred (loginCallback c'))
      else ret Valid
  end.

(** [sendReInvite()], and the task it defers with [setTimeout(..., 0)]. *)
Definition sendReInvite : M unit :=
  c <- getCs ;;
  match _currentSession c, phone c with
  | Some _, Some ua =>
      call (Session_replaceUA ua) ;;
      call (SetTimeout ReinviteTask 0)
  | _, _ => ret tt
  end.

Definition sendReInvite_task : M unit :=
  modifyThis (fun a => set_reinviteCounter (reinviteCounter a + 1) a) ;;
  c <- getCs ;;
  match _currentSession c with
  | Some _ => call (Session_sendReinvite true)
  | None => throw (TypeError "Cannot read properties of null (reading 'session')")
  end.

(** The endpoint list [wsServers] computed by [setupUAConfig]. *)
Definition wsServers (c : Client) : list string :=
  match registrationDomainSocket (options c) with
  | NoDomainSocket => WS_SERVERS C
  | DomainSocketString s =>
      if Js.truthy_string s then Js.split "," s else WS_SERVERS C
  | DomainSocketArray l => l
  end.

(** [setupUAConfig()] *)
Definition setupUAConfig : M SipConfig.t :=
  modifyCs (set_plivoSocket None) ;;
  c <- getCs ;;
  i <- getUrlIndex ;;
  when (List.length (wsServers c) <=? i)%nat (setUrlIndex 0) ;;
  i <- getUrlIndex ;;
  let socket := {| url := Js.index (wsServers c) i |} in
  call (NewWebSocketInterface (url socket)) ;;
  modifyCs (set_plivoSocket (Some socket)) ;;
  a <- getThis ;;
  ret (SipConfig.make
         [socket]
         (registerRefreshTimer a)
         (Js.toString (Credentials.userName (credentials a)) ++ "@" ++ DOMAIN C)
         (Credentials.password (credentials a))
         (accessTokenCredentials a)
         false
         (WS_RECOVERY_MAX_INTERVAL C)
         (WS_RECOVERY_MIN_INTERVAL C)
         false
         (pkg_name C ++ " " ++ pkg_version C)).

(** [tiggerNetworkChangeEvent()]: the synchronous part, and the callback
    passed to [then], which runs only when the promise is fulfilled. *)
Definition tiggerNetworkChangeEvent : M unit :=
  modifyThis (fun a => set_fetchIpCount (fetchIpCount a + 1) a) ;;
  call (FetchIPAddress NetworkChangeEvent).

Definition tiggerNetworkChangeEvent_then (ipAddress : Js.value) : M unit :=
  match ipAddress with
  | Js.Str ip => call (SendNetworkChangeEvent ip)
  | _ =>
      a <- getThis ;;
      if negb (fetchIpCount a =? IP_ADDRESS_FETCH_RETRY_COUNT C) then
        call (SetTimeout NetworkChangeRetry (fetchIpCount a * 200))
      else
        modifyThis (set_fetchIpCount 0)
  end.

(** How the promise returned by [fetchIPAddress] settles: fulfilled with
    [json.ip], rejected (response not ok, or a body that does not
    parse), or never settled (the request itself fails, which
    [fetchIPAddress] does not catch). *)
Inductive Settlement : Type :=
| Fulfilled (ip : Js.value)
| Rejected
| Pending.

(** One activation of the trigger, with the settlement of its request
    delivered before anything else runs. *)
Definition activation (s : Settlement) : M unit :=
  tiggerNetworkChangeEvent ;;
  match s with
  | Fulfilled ip => tiggerNetworkChangeEvent_then ip
  | Rejected | Pending => ret tt
  end.

(** [_onDisconnected(evt)] *)
Definition _onDisconnected (evt : DisconnectedEvent.t) : M unit :=
  match DisconnectedEvent.code evt with
  | Some code =>
      when (negb (code =? 0))
        (modifyCs (set_connectionInfo
                     (mkConnectionInfo DISCONNECTED (Js.int_toString code))))
  | None => ret tt
  end ;;
  a <- getThis ;;
  when (isPlivoSocketConnected a) (modifyThis (set_isPlivoSocketConnected false)) ;;
  c <- getCs ;;
  match loginCallback c with
  | Some cb =>
      call (InvokeLoginCallback cb) ;;
      modifyCs (set_loginCallback None)
  | None => ret tt
  end ;;
  when (negb (DisconnectedEvent.ignoreReconnection evt))
    (i <- getUrlIndex ;;
     setUrlIndex (S i) ;;
     call SocketReconnectionRetry ;;
     sipConfig <- setupUAConfig ;;
     c <- getCs ;;
     match phone c with
     | Some _ =>
         call (Phone_createNewUATransport sipConfig) ;;
         call Phone_start ;;
         sendReInvite
     | None =>
         throw (TypeError "Cannot read properties of null (reading 'createNewUATransport')")
     end).

(** [res.response.headers['X-Plivo-Jwt'][0].raw.split(";")[0].split("=")[1]],
    given the header's array of values. *)
Definition expiryTimeInEpoch (values : list Header) : Completion Js.value :=
  match values with
  | [] => Throw (TypeError "Cannot read properties of undefined (reading 'raw')")
  | h :: _ =>
      match Js.index (Js.split ";" (raw h)) 0 with
      | Js.Str segment => Normal (Js.index (Js.split "=" segment) 1)
      | _ => Throw (TypeError "Cannot read properties of undefined (reading 'split')")
      end
  end.

(** [_onRegistered(res)], from [if (!this.cs.isLoginCalled)] to its end.
    The callbacks of [validateCallStats] run later and are not part of
    the handler. *)
Definition _onRegistered_login : M unit :=
  c <- getCs ;;
  when (negb (isLoginCalled c)) (modifyCs (set_isLoggedIn true)) ;;
  a <- getThis ;;
  modifyCs (set_userName (Credentials.userName (credentials a))) ;;
  modifyCs (set_password (Credentials.password (credentials a))) ;;
  c <- getCs ;;
  when (Bool.eqb (isLoggedIn c) false && Bool.eqb (isLoginCalled c) true)
    (modifyCs (set_isLoggedIn true) ;;
     modifyCs (set_isLoginCalled false) ;;
     call NewNoiseSuppression ;;
     modifyCs (set_noiseSuppresion true) ;;
     emit onLogin ;;
     call (StartPingPong (NETWORK_CHANGE_INTERVAL_IDLE_STATE C)
             (MESSAGE_CHECK_TIMEOUT_ON_CALL_STATE C)) ;;
     c <- getCs ;;
     passToken <- (if isAccessToken c then ret (accessToken c)
                   else modifyCs (set_isAccessToken false) ;; ret (password c)) ;;
     c <- getCs ;;
     call (ValidateCallStats (userName c) passToken (isAccessToken c)) ;;
     call InitCallStatsIO ;;
     call LogSend).

(** [_onRegistered(res)]; [now] is [new Date().getTime()]. *)
Definition _onRegistered (res : RegisteredEvent.t) (now : Z) : M unit :=
  c <- getCs ;;
  when (isSome (_currentSession c) && isCallMuted c) (call StartSpeechRecognition) ;;
  when (isSome (loginCallback c)) (modifyCs (set_loginCallback None)) ;;
  modifyCs (set_connectionInfo (mkConnectionInfo CONNECTED "registered")) ;;
  c <- getCs ;;
  emit (onConnectionChange (connectionInfo c)) ;;
  match (if isAccessToken c
         then getHeader "X-Plivo-Jwt" (headers (RegisteredEvent.response res))
         else None) with
  | Some values =>
      match expiryTimeInEpoch values with
      | Normal v => call (SetExpiryTimeInEpoch (Js.times (Js.ToNumber v) 1000))
      | Throw e => throw e
      end
  | None => ret tt
  end ;;
  c <- getCs ;;
  if negb (isLoggedIn c) && negb (isLoginCalled c) then
    call (ClearInterval (networkChangeInterval c)) ;;
    modifyCs (set_networkChangeInterval None) ;;
    call (StartPingPong
            (if isSome (_currentSession c)
             then NETWORK_CHANGE_INTERVAL_ON_CALL_STATE C
             else NETWORK_CHANGE_INTERVAL_IDLE_STATE C)
            (MESSAGE_CHECK_TIMEOUT_ON_CALL_STATE C)) ;;
    match _currentSession c with
    | None =>
        call (FetchIPAddress IdleNetworkChange) ;;
        modifyCs (set_isLoggedIn true)
    | Some _ =>
        when (isSome (statsSocket c))
          (call StatsSocket_disconnect ;;
           modifyCs (set_statsSocket None)) ;;
        call NewStatsSocket ;;
        modifyCs (set_statsSocket (Some 0%nat)) ;;
        call StatsSocket_connect ;;
        modifyCs (set_networkReconnectionTimestamp (Some now)) ;;
        tiggerNetworkChangeEvent ;;
        _onRegistered_login
    end
  else _onRegistered_login.

(** [_onUnRegistered()] *)
Definition _onUnRegistered (now : Z) : M unit :=
  modifyCs (set_isLoggedIn false) ;;
  c <- getCs ;;
  when (ConnectionState_eqb (state (connectionInfo c)) Unset
        || ConnectionState_eqb (state (connectionInfo c)) CONNECTED)
    (modifyCs (set_connectionInfo (mkConnectionInfo DISCONNECTED "unregistered"))) ;;
  c <- getCs ;;
  emit (onConnectionChange (connectionInfo c)) ;;
  if negb (isLogoutCalled c) then ret tt
  else
    when (match ringToneView c with Some v => negb (paused v) | None => false end)
      (call (StopAudio (RINGTONE_ELEMENT_ID C))) ;;
    when (match ringBackToneView c with Some v => negb (paused v) | None => false end)
      (call (StopAudio (RINGBACK_ELEMENT_ID C))) ;;
    modifyCs (set_networkDisconnectedTimestamp (Some now)) ;;
    modifyCs (set_userName Js.Null) ;;
    modifyCs (set_password Js.Null) ;;
    emit onLogout ;;
    when (isSome (networkChangeInterval c))
      (call (ClearInterval (networkChangeInterval c)) ;;
       modifyCs (set_networkChangeInterval None)) ;;
    call ClearOnLogout ;;
    modifyThis (set_message None) ;;
    modifyCs (set_isLogoutCalled false) ;;
    call LogSend.

(** The error code read by [_onRegistrationFailed]:
    [headers['X-Plivo-Jwt-Error-Code'] ? parseInt(...[0]?.raw, 10) : 401]
    under the optional chain [error?.response?]. *)
Definition errorCodeOf (error : RegistrationFailedEvent.t) : Js.number :=
  match RegistrationFailedEvent.response error with
  | Some r =>
      match getHeader "X-Plivo-Jwt-Error-Code" (headers r) with
      | Some values =>
          Js.parseInt10
            (match values with
             | h :: _ => Js.Str (raw h)
             | [] => Js.Undefined
             end)
      | None => Js.Int 401
      end
  | None => Js.Int 401
  end.

(** The [else] branch of [_onRegistrationFailed]. *)
Definition registrationFailed_other (errorCode : Js.number) : M unit :=
  c <- getCs ;;
  call (ClearInterval (networkChangeInterval c)) ;;
  modifyCs (set_networkChangeInterval None) ;;
  emit (onLoginFailed
          (if isAccessTokenGenerator c then "RELOGIN_FAILED_INVALID_TOKEN"
           else getErrorStringByErrorCodes errorCode)).

(** [_onRegistrationFailed(error)] *)
Definition _onRegistrationFailed (error : RegistrationFailedEvent.t) : M unit :=
  c <- getCs ;;
  if ConnectionState_eqb (state (connectionInfo c)) DISCONNECTED && isLoggedIn c
  then ret tt
  else
    modifyCs (set_isLoggedIn false) ;;
    modifyCs (set_userName Js.Null) ;;
    modifyCs (set_password Js.Null) ;;
    let errorCode := errorCodeOf error in
    match RegistrationFailedEvent.cause error with
    | Some cause =>
        if Js.truthy_string cause && Js.strict_eq_int errorCode 401
        then emit (onLoginFailed cause)
        else registrationFailed_other errorCode
    | None => registrationFailed_other errorCode
    end.

(** *** Admission of new RTC sessions *)

(** [Map.prototype.has], [delete] and [size] on the pending invites. *)
Definition Map_has (k : string) (m : InviteMap) : bool :=
  existsb (fun e => String.eqb (fst e) k) m.

Definition Map_delete (k : string) (m : InviteMap) : InviteMap :=
  filter (fun e => negb (String.eqb (fst e) k)) m.

Definition Map_size (m : InviteMap) : Z := Z.of_nat (List.length m).

(** The [forEach] loop of [_validateRTCSession]: the entries are visited
    in insertion order, an entry deleted before its turn is skipped, and
    an ended invite deletes the entry stored under its own [callUUID]. *)
Fixpoint forEach_deleteEnded (todo : InviteMap) (m : InviteMap) : InviteMap :=
  match todo with
  | [] => m
  | (k, invite) :: rest =>
      if Map_has k m then
        forEach_deleteEnded rest
          (if isEnded (CallSession.session invite)
           then Map_delete (CallSession.callUUID invite) m
           else m)
      else forEach_deleteEnded rest m
  end.

(** The condition of the first [if] of [_validateRTCSession]. *)
Definition primaryIsStale (c : Client) : bool :=
  match _currentSession c with
  | Some s =>
      match connection (CallSession.session s) with
      | Some conn => String.eqb (signalingState conn) "closed"
      | None => false
      end
  | None => false
  end.

(** The first [if] of [_validateRTCSession]. *)
Definition dropStalePrimary (c : Client) : Client :=
  if primaryIsStale c then
    set_callDirection None
      (set_callUUID None
         (set_callSession None
            (set__currentSession None c)))
  else c.

(** The second [if] of [_validateRTCSession]. *)
Definition purgeEndedInvites (c : Client) : Client :=
  if negb (Map_size (incomingInvites c) =? 0) then
    set_incomingInvites
      (forEach_deleteEnded (incomingInvites c) (incomingInvites c)) c
  else c.

(** [_validateRTCSession(evt)] *)
Definition _validateRTCSession : M bool :=
  modifyCs dropStalePrimary ;;
  modifyCs purgeEndedInvites ;;
  c <- getCs ;;
  if ((isSome (_currentSession c) || negb (Map_size (incomingInvites c) =? 0))
      && negb (allowMultipleIncomingCalls (options c)))
     || (NUMBER_OF_SIMULTANEOUS_INCOMING_CALLS_ALLOWED C <=? Map_size (incomingInvites c))
  then
    call (SetSipCallID "") ;;
    call (Session_terminate 486 "Busy Here") ;;
    ret false
  else ret true.

(** [_onNewRTCSession(evt)]; [now] is [new Date().getTime()]. *)
Definition _onNewRTCSession (evt : NewRTCSessionEvent.t) (now : Z) : M unit :=
  match NewRTCSessionEvent.originator evt with
  | local => call (SetSipCallID (NewRTCSessionEvent.call_id evt))
  | _ => ret tt
  end ;;
  call CreateStatsSocket ;;
  ok <- _validateRTCSession ;;
  if negb ok then ret tt
  else
    match NewRTCSessionEvent.originator evt with
    | remote =>
        call AddMidAttribute ;;
        call CreateIncomingSession
    | _ => call CreateOutgoingSession
    end ;;
    modifyCs (set_mediaSetup_init (Some now)).

End Account.

(** ** Properties *)

(** *** Sample configuration and states *)

Definition C0 : Constants := {|
  WS_SERVERS := ["w0"; "w1"; "w2"];
  DOMAIN := "phone.plivo.com";
  WS_RECOVERY_MAX_INTERVAL := 20;
  WS_RECOVERY_MIN_INTERVAL := 2;
  IP_ADDRESS_FETCH_RETRY_COUNT := 3;
  NETWORK_CHANGE_INTERVAL_ON_CALL_STATE := 2000;
  NETWORK_CHANGE_INTERVAL_IDLE_STATE := 10000;
  MESSAGE_CHECK_TIMEOUT_ON_CALL_STATE := 5000;
  NUMBER_OF_SIMULTANEOUS_INCOMING_CALLS_ALLOWED := 2;
  RINGTONE_ELEMENT_ID := "plivo_ringtone";
  RINGBACK_ELEMENT_ID := "plivo_ringbacktone";
  pkg_name := "plivo-browser-sdk";
  pkg_version := "2"
|}.

Definition errorString0 (n : Js.number) : string := "error".

(** A client that has just been constructed: nothing in progress. *)
Definition client0 : Client := {|
  _currentSession := None;
  callSession := None;
  callUUID := None;
  callDirection := None;
  incomingInvites := [];
  options := {| allowMultipleIncomingCalls := false;
                registrationDomainSocket := NoDomainSocket |};
  phone := None;
  plivoSocket := None;
  loginCallback := None;
  connectionInfo := mkConnectionInfo Unset "";
  isLoggedIn := false;
  isLoginCalled := false;
  isLogoutCalled := false;
  isAccessToken := false;
  isAccessTokenGenerator := false;
  isCallMuted := false;
  userName := Js.Null;
  password := Js.Null;
  accessToken := Js.Null;
  networkChangeInterval := None;
  statsSocket := None;
  noiseSuppresion := false;
  ringToneView := None;
  ringBackToneView := None;
  networkDisconnectedTimestamp := None;
  networkReconnectionTimestamp := None;
  mediaSetup_init := None
|}.

(** [new Account(client, userName, password, accessToken, timer)] *)
Definition newAccount (c : Client) (user pass token : Js.value) (timer : Z) : Account :=
  mkAccount c false None timer (Credentials.make user pass) token 0 0.

Definition account0 : Account :=
  newAccount client0 (Js.Str "alice") (Js.Str "secret") Js.Null 120.

Definition world0 : World := mkWorld 0 account0.

Definition withCs (f : Client -> Client) (w : World) : World :=
  mkWorld (urlIndex w) (set_cs (f (cs (this w))) (this w)).

(** A session whose peer connection is in the given signaling state. *)
Definition callSessionIn (uuid signaling : string) (ended : bool) : CallSession.t :=
  CallSession.make uuid
    {| connection := Some {| signalingState := signaling |}; isEnded := ended |}.

(** Proofs about a handler open the world into its fields, decide the
    fields the handler branches on, and let both sides compute. *)
Ltac open_world w :=
  destruct w as
    [cursor
       [[current csession cuuid cdirection invites [multiple sockets] ua socket
           callback [st why] logged loginCalled logoutCalled token generator
           muted user pass atoken interval stats noise ring ringback
           disconnectedAt reconnectedAt mediaAt]
          connected msg timer [cuser cpass] ctoken ipCount reinvites]].

#[local] Arguments wsServers : simpl never.
#[local] Arguments Js.int_toString : simpl never.
#[local] Arguments _validateRTCSession : simpl never.

Ltac run_handler :=
  unfold bind, ret, call, emit, throw, when, getCs, getThis, getUrlIndex,
    setUrlIndex, modifyCs, modifyThis; cbn.

(** Selectors on the trace. *)
Definition isConnectionChange (e : Effect) : bool :=
  match e with Emit (onConnectionChange _) => true | _ => false end.

Definition isOnLogin (e : Effect) : bool :=
  match e with Emit onLogin => true | _ => false end.

Definition isInvokeLoginCallback (e : Effect) : bool :=
  match e with InvokeLoginCallback _ => true | _ => false end.

Definition isSetExpiry (e : Effect) : bool :=
  match e with SetExpiryTimeInEpoch _ => true | _ => false end.

Definition completesNormally {A : Type} (r : Outcome A) : bool :=
  match completion r with Normal _ => true | Throw _ => false end.

(** *** Sample data for registration failure and unregistration *)

Definition staleFailureWorld : World :=
  withCs (fun c => set_isLoggedIn true
                     (set_connectionInfo (mkConnectionInfo DISCONNECTED "1006") c))
    world0.

Definition failure403 : RegistrationFailedEvent.t :=
  RegistrationFailedEvent.make (Some "Rejected") None.

(** The connection info that [_onUnRegistered] leaves and reports. *)
Definition afterUnregistered (before : ConnectionInfo) : ConnectionInfo :=
  match state before with
  | Unset | CONNECTED => mkConnectionInfo DISCONNECTED "unregistered"
  | DISCONNECTED => before
  end.

(** *** Disconnection *)

(** The connection info after a [disconnected] event: recorded only when
    the event carries a code that is truthy. *)
Definition afterDisconnected (evt : DisconnectedEvent.t) (before : ConnectionInfo)
  : ConnectionInfo :=
  match DisconnectedEvent.code evt with
  | Some code =>
      if code =? 0 then before
      else mkConnectionInfo DISCONNECTED (Js.int_toString code)
  | None => before
  end.

(** A registered client with a user agent and a login waiting for the old
    transport to go down. *)
Definition registeredWorld : World :=
  withCs (fun c => set_loginCallback (Some 1%nat)
                     (set_phone (Some 0%nat)
                        (set_isLoggedIn true
                           (set_connectionInfo (mkConnectionInfo CONNECTED "registered") c))))
    world0.

Definition disconnectWithoutCode : DisconnectedEvent.t :=
  DisconnectedEvent.make None false.

Definition disconnect1006 : DisconnectedEvent.t :=
  DisconnectedEvent.make (Some 1006) false.

(** The endpoint cursor points into the endpoint list, as it does once
    [setupUAConfig] has run on a list that is not empty. *)
Definition cursorInRange (C : Constants) (w : World) : Prop :=
  (urlIndex w < List.length (wsServers C (cs (this w))))%nat.

Definition reconnects (evt : DisconnectedEvent.t) : Prop :=
  DisconnectedEvent.ignoreReconnection evt = false.

(** *** Admission *)

(** The refusal condition in the words of the specification: a primary
    session or a pending invite exists and multiplexing is disabled, or the
    number of pending invites has reached the ceiling. *)
Definition admissionRejects (C : Constants) (c : Client) : bool :=
  ((isSome (_currentSession c) || (0 <? Map_size (incomingInvites c)))
   && negb (allowMultipleIncomingCalls (options c)))
  || (NUMBER_OF_SIMULTANEOUS_INCOMING_CALLS_ALLOWED C <=? Map_size (incomingInvites c)).

(** The client at the moment of the decision: after the stale primary
    session has been dropped and the ended invites purged. *)
Definition atDecision (c : Client) : Client :=
  purgeEndedInvites (dropStalePrimary c).

(** What [_onNewRTCSession] does before validating. *)
Definition announce (evt : NewRTCSessionEvent.t) : list Effect :=
  match NewRTCSessionEvent.originator evt with
  | local => [SetSipCallID (NewRTCSessionEvent.call_id evt)]
  | _ => []
  end
  ++ [CreateStatsSocket].

Definition busyHere : list Effect :=
  [SetSipCallID ""; Session_terminate 486 "Busy Here"].

Definition sessionFor (o : Originator) : list Effect :=
  match o with
  | remote => [AddMidAttribute; CreateIncomingSession]
  | local | system => [CreateOutgoingSession]
  end.

(** An invite whose session has not ended. *)
Definition stillPending (e : string * CallSession.t) : bool :=
  negb (isEnded (CallSession.session (snd e))).

(** The pending invites are stored under their own call identifier, one
    entry per identifier, as a [Map] filled with
    [set(invite.callUUID, invite)] is. *)
Definition wellKeyed (m : InviteMap) : Prop :=
  NoDup (map fst m)
  /\ Forall (fun e => fst e = CallSession.callUUID (snd e)) m.

(** A client on a call whose peer connection is closed, with one ended and
    one live invite pending. *)
Definition staleCallWorld : World :=
  withCs (fun c =>
            set_incomingInvites
              [("a", callSessionIn "a" "stable" true);
               ("b", callSessionIn "b" "stable" false)]
              (set_callDirection (Some "outgoing")
                 (set_callUUID (Some "x")
                    (set_callSession (Some (callSessionIn "x" "closed" false))
                       (set__currentSession (Some (callSessionIn "x" "closed" false)) c)))))
    world0.

(** The same call, with the ended invite as the only pending one. *)
Definition staleOnlyWorld : World :=
  withCs (set_incomingInvites [("a", callSessionIn "a" "stable" true)]) staleCallWorld.

Definition inboundInvite : NewRTCSessionEvent.t :=
  NewRTCSessionEvent.make remote "call-1".

Definition outboundCall : NewRTCSessionEvent.t :=
  NewRTCSessionEvent.make local "call-2".

(** *** Registration *)

(** A fresh login is in flight: [login] was called and the client is not
    logged in yet. *)
Definition freshLogin (c : Client) : bool :=
  negb (isLoggedIn c) && isLoginCalled c.

(** The response carries an [X-Plivo-Jwt] header with no value at all, on
    which [_onRegistered] throws in access-token mode. *)
Definition emptyJwtHeader (res : RegisteredEvent.t) : bool :=
  match getHeader "X-Plivo-Jwt" (headers (RegisteredEvent.response res)) with
  | Some [] => true
  | _ => false
  end.

Definition registrationThrows (c : Client) (res : RegisteredEvent.t) : bool :=
  isAccessToken c && emptyJwtHeader res.

Definition onLoginCount (trace : list Effect) : nat :=
  List.length (filter isOnLogin trace).

(** A run of [registered] events, each with the time it is handled at. *)
Definition registrations (C : Constants) (evs : list (RegisteredEvent.t * Z)) : M unit :=
  sequence (map (fun ev => _onRegistered C (fst ev) (snd ev)) evs).

(** The string has no occurrence of the character. *)
Fixpoint lacks (sep : ascii) (s : string) : bool :=
  match s with
  | EmptyString => true
  | String c r => negb (Ascii.eqb c sep) && lacks sep r
  end.

Definition jwtResponse (value : string) : RegisteredEvent.t :=
  RegisteredEvent.make {| headers := [("X-Plivo-Jwt", [{| raw := value |}])] |}.

Definition plainResponse : RegisteredEvent.t :=
  RegisteredEvent.make {| headers := [] |}.

(** A client logging in with an access token. *)
Definition tokenLoginWorld : World :=
  withCs (fun c => set_isAccessToken true (set_isLoginCalled true c)) world0.

(** A client in the middle of a fresh login with user name and password. *)
Definition loginWorld : World :=
  withCs (set_isLoginCalled true) world0.

(** A logged-in client on a call whose registration comes back after a
    network change. *)
Definition reconnectedOnCallWorld : World :=
  withCs (fun c => set_isLoggedIn true
                     (set__currentSession (Some (callSessionIn "x" "stable" false)) c))
    world0.

#[local] Arguments expiryTimeInEpoch : simpl never.

(** *** Login validation *)

Definition isLoginFailed (e : Effect) : bool :=
  match e with Emit (onLoginFailed _) => true | _ => false end.

(** An account created with an empty user name and an empty password, on
    an idle client with no user agent yet. *)
Definition emptyCredentialsWorld : World :=
  mkWorld 0 (newAccount client0 (Js.Str "") (Js.Str "") Js.Null 120).

(** An account created with a user name and a [null] password. *)
Definition nullPasswordWorld : World :=
  mkWorld 0 (newAccount client0 (Js.Str "alice") Js.Null Js.Null 120).

(** *** Network-change trigger *)

Definition resolved : Settlement := Fulfilled (Js.Str "203.0.113.7").

Definition unresolved : Settlement := Fulfilled Js.Undefined.

(** As many successful activations as the retry ceiling, then one whose
    request yields no address. *)
Definition successesThenFailure (C : Constants) : list Settlement :=
  repeat resolved (Z.to_nat (IP_ADDRESS_FETCH_RETRY_COUNT C)) ++ [unresolved].

Definition activations (C : Constants) (l : list Settlement) : M unit :=
  sequence (map (activation C) l).

Definition withFetchIpCount (n : Z) (w : World) : World :=
  mkWorld (urlIndex w) (set_fetchIpCount n (this w)).

(** ** The account's other methods *)

(** The client fields that only [_onConnected] and [_onNewTransaction]
    use, kept beside the world. *)
Record NetworkInfo : Type := {
  networkType : string;
  ip : string
}.

(** [incomingCallsInitiationTime]: a [Map] from call identifier (or
    [null]) to the time the invite was received. *)
Definition TimeMap : Type := list (option string * Z).

Record ClientNetwork : Type := mkClientNetwork {
  connectionRetryInterval : option Timer;
  didFetchInitialNetworkInfo : bool;
  currentNetworkInfo : option NetworkInfo;
  incomingCallsInitiationTime : TimeMap
}.

Record Whole : Type := mkWhole {
  core : World;
  net : ClientNetwork
}.

(** The methods registered as listeners on the user agent. *)
Inductive Handler : Type :=
| handler_onConnected
| handler_onDisconnected
| handler_onRegistered
| handler_onUnRegistered
| handler_onRegistrationFailed
| handler_onNewTransaction
| handler_onNewRTCSession.

(** The trace of the methods below: the effects of the handlers above and
    the calls only account set-up and [_onConnected] make. *)
Inductive WideEffect : Type :=
| Core (e : Effect)
| NewUA (cfg : SipConfig.t)
| Phone_on (event : string) (h : Handler)
| Registrator_setExtraHeaders (hs : list string)
| FetchInitialIPAddress.

Record Wide (A : Type) : Type := mkWide {
  result : Completion A;
  whole : Whole;
  trace : list WideEffect
}.

Arguments mkWide {A} _ _ _.
Arguments result {A} _.
Arguments whole {A} _.
Arguments trace {A} _.

Definition W (A : Type) : Type := Whole -> Wide A.

Definition retW {A : Type} (a : A) : W A :=
  fun s => mkWide (Normal a) s [].

Definition bindW {A B : Type} (m : W A) (f : A -> W B) : W B :=
  fun s =>
    match m s with
    | mkWide (Normal a) s1 t1 =>
        match f a s1 with
        | mkWide k s2 t2 => mkWide k s2 (t1 ++ t2)
        end
    | mkWide (Throw e) s1 t1 => mkWide (Throw e) s1 t1
    end.

Declare Scope wide_scope.
Delimit Scope wide_scope with wide.
Bind Scope wide_scope with W.

Notation "x <- m ;; k" := (bindW m (fun x => k))
  (at level 61, m at next level, right associativity) : wide_scope.
Notation "m ;; k" := (bindW m (fun _ => k))
  (at level 61, right associativity) : wide_scope.

(** A handler of the world, run on the whole state. *)
Definition lift {A : Type} (m : M A) : W A :=
  fun s =>
    match m (core s) with
    | mkOutcome k w e => mkWide k (mkWhole w (net s)) (map Core e)
    end.

Definition callW (e : WideEffect) : W unit :=
  fun s => mkWide (Normal tt) s [e].

Definition getNet : W ClientNetwork :=
  fun s => mkWide (Normal (net s)) s [].

Definition modifyNet (f : ClientNetwork -> ClientNetwork) : W unit :=
  fun s => mkWide (Normal tt) (mkWhole (core s) (f (net s))) [].

Definition whenW (b : bool) (m : W unit) : W unit :=
  if b then m else retW tt.

Definition set_connectionRetryInterval (v : option Timer) (n : ClientNetwork)
  : ClientNetwork :=
  mkClientNetwork v (didFetchInitialNetworkInfo n) (currentNetworkInfo n)
    (incomingCallsInitiationTime n).

Definition set_didFetchInitialNetworkInfo (v : bool) (n : ClientNetwork)
  : ClientNetwork :=
  mkClientNetwork (connectionRetryInterval n) v (currentNetworkInfo n)
    (incomingCallsInitiationTime n).

Definition set_currentNetworkInfo (v : option NetworkInfo) (n : ClientNetwork)
  : ClientNetwork :=
  mkClientNetwork (connectionRetryInterval n) (didFetchInitialNetworkInfo n) v
    (incomingCallsInitiationTime n).

Definition set_incomingCallsInitiationTime (v : TimeMap) (n : ClientNetwork)
  : ClientNetwork :=
  mkClientNetwork (connectionRetryInterval n) (didFetchInitialNetworkInfo n)
    (currentNetworkInfo n) v.

(** [Map.prototype.get] and [set] on the initiation times: [set] replaces
    the value of a key already present and appends a new key. *)
Definition key_eqb (a b : option string) : bool :=
  match a, b with
  | Some x, Some y => String.eqb x y
  | None, None => true
  | _, _ => false
  end.

Fixpoint TimeMap_get (k : option string) (m : TimeMap) : option Z :=
  match m with
  | [] => None
  | (k', v) :: rest => if key_eqb k' k then Some v else TimeMap_get k rest
  end.

Fixpoint TimeMap_set (k : option string) (v : Z) (m : TimeMap) : TimeMap :=
  match m with
  | [] => [(k, v)]
  | (k', v') :: rest =>
      if key_eqb k' k then (k', v) :: rest else (k', v') :: TimeMap_set k v rest
  end.

(** The payload of [newTransaction], as far as the account reads it: the
    transaction type and the results of [request.getHeader] for the two
    headers, a string or [undefined]. *)
Module TransactionEvent.
Record t : Type := make {
  type : string;
  Call_ID : Js.value;
  X_Calluuid : Js.value
}.
End TransactionEvent.

(** An event the user agent delivers to its listeners, with the time of
    delivery where the handler reads the clock. *)
Inductive Event : Type :=
| Connected
| Disconnected (evt : DisconnectedEvent.t)
| Registered (res : RegisteredEvent.t) (now : Z)
| Unregistered (now : Z)
| RegistrationFailed (error : RegistrationFailedEvent.t)
| NewTransaction (evt : TransactionEvent.t) (now : Z)
| NewRTCSession (evt : NewRTCSessionEvent.t) (now : Z).

Section AccountSetup.

Local Open Scope wide_scope.

Variable C : Constants.

Variable getErrorStringByErrorCodes : Js.number -> string.

(** [new SipLib.UA(sipConfig)]: the user agent, or [None] when the
    constructor throws. *)
Variable newUA : SipConfig.t -> option UA.

(** [_create()] *)
Definition _create : W bool :=
  sipConfig <- lift (setupUAConfig C) ;;
  callW (NewUA sipConfig) ;;
  match newUA sipConfig with
  | Some ua =>
      lift (modifyCs (set_phone (Some ua))) ;;
      retW true
  | None =>
      lift (emit (onLoginFailed "Failed to create user agent")) ;;
      retW false
  end.

(** The listeners of [_createListeners], in the order they are added. *)
Definition listeners : list (string * Handler) :=
  [("connected", handler_onConnected);
   ("disconnected", handler_onDisconnected);
   ("registered", handler_onRegistered);
   ("unregistered", handler_onUnRegistered);
   ("registrationFailed", handler_onRegistrationFailed);
   ("newTransaction", handler_onNewTransaction);
   ("newRTCSession", handler_onNewRTCSession)].

Fixpoint callAll (es : list WideEffect) : W unit :=
  match es with
  | [] => retW tt
  | e :: rest => callW e ;; callAll rest
  end.

(** [_createListeners()] *)
Definition _createListeners : W unit :=
  c <- lift getCs ;;
  whenW (isSome (phone c))
    (callAll (map (fun l => Phone_on (fst l) (snd l)) listeners)).

(** [_setupUserAccount()] *)
Definition _setupUserAccount : W unit :=
  isCreated <- _create ;;
  if negb isCreated then retW tt
  else
    _createListeners ;;
    c <- lift getCs ;;
    whenW (isSome (phone c))
      (a <- lift getThis ;;
       match accessTokenCredentials a with
       | Js.Str token =>
           callW (Registrator_setExtraHeaders [("X-Plivo-Jwt: " ++ token)%string])
       | Js.Undefined | Js.Null => retW tt
       end ;;
       lift (call SocketReconnectionRetry) ;;
       lift (call Phone_start)).

(** [_onConnected(evt)] *)
Definition _onConnected : W unit :=
  n <- getNet ;;
  whenW (isSome (connectionRetryInterval n))
    (lift (call (ClearInterval (connectionRetryInterval n))) ;;
     modifyNet (set_connectionRetryInterval None)) ;;
  a <- lift getThis ;;
  whenW (negb (isPlivoSocketConnected a))
    (lift (modifyThis (set_isPlivoSocketConnected true)) ;;
     n <- getNet ;;
     whenW (negb (didFetchInitialNetworkInfo n))
       (callW FetchInitialIPAddress ;;
        modifyNet (set_didFetchInitialNetworkInfo true))).

(** The callbacks [_onConnected] attaches to [fetchIPAddress]:
    [effectiveType] is [navigator.connection.effectiveType], absent when
    the browser has no [navigator.connection]. *)
Definition _onConnected_settled (s : Settlement) (effectiveType : option string)
  : W unit :=
  let kind := match effectiveType with Some t => t | None => "unknown" end in
  match s with
  | Fulfilled v =>
      modifyNet (set_currentNetworkInfo
                   (Some {| networkType := kind;
                            ip := match v with Js.Str a => a | _ => "" end |}))
  | Rejected =>
      modifyNet (set_currentNetworkInfo (Some {| networkType := kind; ip := "" |}))
  | Pending => retW tt
  end.

(** [_onNewTransaction(evt)]; [now] is [getCurrentTime()]. *)
Definition _onNewTransaction (evt : TransactionEvent.t) (now : Z) : W unit :=
  whenW (String.eqb (TransactionEvent.type evt) "ist")
    (let callID :=
       match TransactionEvent.Call_ID evt with
       | Js.Str s => s
       | Js.Undefined | Js.Null => ""
       end in
     lift (call (SetSipCallID callID)) ;;
     let callUUID :=
       match TransactionEvent.X_Calluuid evt with
       | Js.Str s => if Js.truthy_string s then Some s else None
       | Js.Undefined | Js.Null => None
       end in
     modifyNet (fun n =>
                  set_incomingCallsInitiationTime
                    (TimeMap_set callUUID now (incomingCallsInitiationTime n)) n)).

(** The handler each event reaches through the listeners above. *)
Definition deliver (e : Event) : W unit :=
  match e with
  | Connected => _onConnected
  | Disconnected evt => lift (_onDisconnected C evt)
  | Registered res now => lift (_onRegistered C res now)
  | Unregistered now => lift (_onUnRegistered C now)
  | RegistrationFailed error => lift (_onRegistrationFailed getErrorStringByErrorCodes error)
  | NewTransaction evt now => _onNewTransaction evt now
  | NewRTCSession evt now => lift (_onNewRTCSession C evt now)
  end.

(** Events are handled one after the other; an exception ends the handler
    that threw it, not the ones after it. *)
Fixpoint deliverAll (es : list Event) : W unit :=
  match es with
  | [] => retW tt
  | e :: rest =>
      fun s =>
        match deliver e s with
        | mkWide _ s1 t1 =>
            match deliverAll rest s1 with
            | mkWide k s2 t2 => mkWide k s2 (t1 ++ t2)
            end
        end
  end.

End AccountSetup.

(** ** HTTP requests of the statistics module *)

Module HttpRequest.

(** The value [JSON.parse] returns, as far as the requests read it: a
    member of an object is a string, [null], or anything else. *)
Inductive Member : Type :=
| MemberString (s : string)
| MemberNull
| MemberOther.

Inductive Json : Type :=
| JsonNull
| JsonString (s : string)
| JsonObject (fields : list (string * Member))
| JsonOther.

Fixpoint field (name : string) (fields : list (string * Member)) : option Member :=
  match fields with
  | [] => None
  | (n, v) :: rest => if String.eqb n name then Some v else field name rest
  end.

(** [json.name]: [undefined] ([None]) on a missing property and on a
    string, number, boolean or array; a [TypeError] on [null]. *)
Definition property (j : Json) (name : string) : Completion (option Member) :=
  match j with
  | JsonNull => Throw (TypeError "Cannot read properties of null")
  | JsonObject fields => Normal (field name fields)
  | JsonString _ | JsonOther => Normal None
  end.

(** What [fetch] comes back with: the request fails, or a response
    arrives whose [text()] yields the body or fails. *)
Inductive Body : Type :=
| Text (s : string)
| TextFails.

Inductive FetchResult : Type :=
| NetworkError
| Response (ok : bool) (body : Body).

(** The value a promise is rejected with. *)
Inductive Reason : Type :=
| Message (s : string)
| ErrorObject (msg : string)
| FetchFailure.

(** How a promise ends: resolved, rejected, or never settled. *)
Inductive Promise (A : Type) : Type :=
| Resolved (a : A)
| RejectedWith (why : Reason)
| Unsettled.

Arguments Resolved {A} a.
Arguments RejectedWith {A} why.
Arguments Unsettled {A}.

(** [String.prototype.toLowerCase] on code units below 256. *)
Definition toLowerCase_unit (c : ascii) : ascii :=
  let n := nat_of_ascii c in
  if ((65 <=? n) && (n <=? 90)
      || (192 <=? n) && (n <=? 222) && negb (n =? 215))%nat
  then ascii_of_nat (n + 32)
  else c.

Fixpoint toLowerCase (s : string) : string :=
  match s with
  | EmptyString => EmptyString
  | String c r => String (toLowerCase_unit c) (toLowerCase r)
  end.

(** [s.startsWith(p)] *)
Definition startsWith (s p : string) : bool := String.prefix p s.

(** The [username] that [validateCallStats] sends: the 'sip:' prefix is
    removed with [userName.split(':')[1]]. *)
Definition statsUsername (userName : string) : Js.value :=
  if startsWith (toLowerCase userName) "sip:"
  then Js.index (Js.split ":" userName) 1
  else Js.Str userName.

Section Requests.

(** [JSON.parse] on a text that is not empty: [None] when it throws. *)
Variable JSON_parse : string -> option Json.

(** [JSON.parse]: the empty text is never valid JSON. *)
Definition parse (s : string) : option Json :=
  if String.eqb s "" then None else JSON_parse s.

(** The promise of [validateCallStats], by what its request comes back
    with.  The callbacks of [response.text()] are not chained to the
    outer [catch]: a failure there settles nothing. *)
Definition validateCallStats (r : FetchResult) : Promise Json :=
  match r with
  | NetworkError => RejectedWith FetchFailure
  | Response false _ => RejectedWith (Message "Incorrect response code")
  | Response true TextFails => Unsettled
  | Response true (Text responsebody) =>
      if negb (Js.truthy_string responsebody)
      then RejectedWith (Message "Call insights is not enabled")
      else match parse responsebody with
           | Some parsedResponseBody => Resolved parsedResponseBody
           | None => Unsettled
           end
  end.

(** The promise of [getPreSignedS3URL]. *)
Definition getPreSignedS3URL (r : FetchResult) : Promise Json :=
  match r with
  | NetworkError =>
      RejectedWith
        (Message "API server did not return the presigned S3 Url for uploading call logs")
  | Response false _ => RejectedWith (Message "Bad response from server")
  | Response true TextFails => RejectedWith (Message "Did not get s3 url to upload")
  | Response true (Text responseBody) =>
      if negb (Js.truthy_string responseBody)
      then RejectedWith (Message "Response is not valid")
      else match parse responseBody with
           | Some json => Resolved json
           | None => RejectedWith (Message "Did not get s3 url to upload")
           end
  end.

(** The promise of [fetchIPAddress]: the outer [fetch] has no [catch]. *)
Definition fetchIPAddress (r : FetchResult) : Promise (option Member) :=
  match r with
  | NetworkError => Unsettled
  | Response false _ => RejectedWith (ErrorObject "Not able to get public IP")
  | Response true TextFails => RejectedWith (ErrorObject "Not able to get public IP")
  | Response true (Text responseBody) =>
      match parse responseBody with
      | Some json =>
          match property json "ip" with
          | Normal v => Resolved v
          | Throw _ => RejectedWith (ErrorObject "Not able to get public IP")
          end
      | None => RejectedWith (ErrorObject "Not able to get public IP")
      end
  end.

(** The file [uploadConsoleLogsToBucket] sends: the feedback, when there
    is one, as a line of its own before the console logs.  [feedback] is
    [JSON.stringify(feedback)]. *)
Definition logFile (feedback : option string) (consolelogs : string) : list string :=
  match feedback with
  | Some f => [(f ++ " " ++ String "010" "")%string]
  | None => []
  end ++ [consolelogs].

(** The promise of [uploadConsoleLogsToBucket]: [validURL] tells whether
    [new URL(data)] accepts the pre-signed address. *)
Definition uploadConsoleLogsToBucket (validURL : bool) (r : FetchResult)
  : Promise string :=
  if negb validURL then RejectedWith (ErrorObject "Invalid URL")
  else
    match r with
    | NetworkError => RejectedWith (Message "Log file was not uploaded to server")
    | Response _ _ => Resolved "done"
    end.

End Requests.

End HttpRequest.

(** ** Sample data for the further properties *)

Definition teardown : DisconnectedEvent.t :=
  DisconnectedEvent.make (Some 1000) true.

(** A registered client on a call. *)
Definition onCallWorld : World :=
  withCs (fun c => set_phone (Some 0%nat)
                     (set_isLoggedIn true
                        (set_connectionInfo (mkConnectionInfo CONNECTED "registered")
                           (set__currentSession
                              (Some (callSessionIn "x" "stable" false)) c))))
    world0.

(** A registered client whose user agent is gone. *)
Definition noPhoneWorld : World :=
  withCs (set_phone None) registeredWorld.

Definition isTransportEffect (e : Effect) : bool :=
  match e with
  | SocketReconnectionRetry | NewWebSocketInterface _
  | Phone_createNewUATransport _ | Phone_start
  | Session_replaceUA _ | SetTimeout _ _ => true
  | _ => false
  end.

(** The number of occurrences of a character in a string. *)
Fixpoint occurrences (sep : ascii) (s : string) : nat :=
  match s with
  | EmptyString => O
  | String c r => (if Ascii.eqb c sep then 1 else 0) + occurrences sep r
  end.

(** A client configured with a comma-separated endpoint string. *)
Definition customEndpointsWorld : World :=
  withCs (fun c =>
            mkClient (_currentSession c) (callSession c) (callUUID c) (callDirection c)
              (incomingInvites c)
              {| allowMultipleIncomingCalls := false;
                 registrationDomainSocket := DomainSocketString "wss://a, wss://b," |}
              (phone c) (plivoSocket c) (loginCallback c) (connectionInfo c)
              (isLoggedIn c) (isLoginCalled c) (isLogoutCalled c) (isAccessToken c)
              (isAccessTokenGenerator c) (isCallMuted c) (userName c) (password c)
              (accessToken c) (networkChangeInterval c) (statsSocket c)
              (noiseSuppresion c) (ringToneView c) (ringBackToneView c)
              (networkDisconnectedTimestamp c) (networkReconnectionTimestamp c)
              (mediaSetup_init c))
    world0.

(** A logged-in client with a user agent, about to log in again. *)
Definition reloginWorld : World :=
  withCs (fun c => set_phone (Some 0%nat) (set_isLoggedIn true c)) world0.

(** Further selectors on the trace. *)
Definition isOnLogout (e : Effect) : bool :=
  match e with Emit onLogout => true | _ => false end.

Definition notSetExpiry (e : Effect) : bool := negb (isSetExpiry e).

Definition onLogoutCount (t : list Effect) : nat :=
  List.length (filter isOnLogout t).

(** The client waits for a registration after a network change: neither
    logged in nor logging in. *)
Definition awaitsReconnect (c : Client) : bool :=
  negb (isLoggedIn c) && negb (isLoginCalled c).

(** A [registrationFailed] event is ignored as stale. *)
Definition staleFailure (c : Client) : bool :=
  ConnectionState_eqb (state (connectionInfo c)) DISCONNECTED && isLoggedIn c.

(** The audio element is there and playing. *)
Definition playing (v : option HTMLAudioElement) : bool :=
  match v with Some a => negb (paused a) | None => false end.

Definition unregistrations (C : Constants) (nows : list Z) : M unit :=
  sequence (map (_onUnRegistered C) nows).

(** An idle client whose network just changed. *)
Definition idleReconnectWorld : World :=
  withCs (fun c => set_networkChangeInterval (Some 3%nat)
                     (set_userName (Js.Str "old") c))
    world0.

(** A client on a call whose network just changed. *)
Definition callReconnectWorld : World :=
  withCs (fun c => set_statsSocket (Some 0%nat)
                     (set__currentSession (Some (callSessionIn "x" "stable" false)) c))
    world0.

(** A logged-in client that asked to log out while its ringtone plays. *)
Definition logoutWorld : World :=
  withCs (fun c =>
            mkClient (_currentSession c) (callSession c) (callUUID c) (callDirection c)
              (incomingInvites c) (options c) (phone c) (plivoSocket c)
              (loginCallback c) (mkConnectionInfo CONNECTED "registered")
              true false true (isAccessToken c)
              (isAccessTokenGenerator c) (isCallMuted c) (Js.Str "alice")
              (Js.Str "secret") (accessToken c) (Some 4%nat) (statsSocket c)
              (noiseSuppresion c) (Some {| paused := false |}) (ringBackToneView c)
              (networkDisconnectedTimestamp c) (networkReconnectionTimestamp c)
              (mediaSetup_init c))
    world0.

Definition failureWithCode (code : string) : RegistrationFailedEvent.t :=
  RegistrationFailedEvent.make (Some "Unauthorized")
    (Some {| headers := [("X-Plivo-Jwt-Error-Code", [{| raw := code |}])] |}).

(** The trace of [k] activations in a row that each find no address and
    schedule a retry, the first one starting from counter [c]. *)
Fixpoint retries (c : Z) (k : nat) : list Effect :=
  match k with
  | O => []
  | S k' =>
      FetchIPAddress NetworkChangeEvent
        :: SetTimeout NetworkChangeRetry ((c + 1) * 200)
        :: retries (c + 1) k'
  end.

(** Two invites pending, one of them ended, on an idle client that takes
    several calls. *)
Definition twoInvitesWorld : World :=
  withCs (set_incomingInvites
            [("a", callSessionIn "a" "stable" true);
             ("b", callSessionIn "b" "stable" false)])
    world0.

(** Selectors and counts on the wide trace and on runs of events. *)
Definition isCallbackCall (e : WideEffect) : bool :=
  match e with Core (InvokeLoginCallback _) => true | _ => false end.

Definition isInitialFetch (e : WideEffect) : bool :=
  match e with FetchInitialIPAddress => true | _ => false end.

Definition isPhoneOn (e : WideEffect) : bool :=
  match e with Phone_on _ _ => true | _ => false end.

Definition isConnected (e : Event) : bool :=
  match e with Connected => true | _ => false end.

(** The [disconnected] events of a run that ask for a reconnection. *)
Definition reconnectCount (es : list Event) : nat :=
  List.length
    (filter (fun e => match e with
                      | Disconnected evt => negb (DisconnectedEvent.ignoreReconnection evt)
                      | _ => false
                      end) es).

(** The cursor after one event. *)
Definition cursorAfter (C : Constants) (e : Event) (w : World) : nat :=
  match e with
  | Disconnected evt =>
      if DisconnectedEvent.ignoreReconnection evt then urlIndex w
      else if (List.length (wsServers C (cs (this w))) <=? S (urlIndex w))%nat
           then 0%nat else S (urlIndex w)
  | _ => urlIndex w
  end.

Definition net0 : ClientNetwork := mkClientNetwork None false None [].

Definition whole0 : Whole := mkWhole world0 net0.

Definition newUA0 (cfg : SipConfig.t) : option UA := Some 5%nat.

Definition newUA_throws (cfg : SipConfig.t) : option UA := None.

(** What each handler of the world leaves alone. *)
Definition keepsTransport (m : M unit) : Prop :=
  forall w : World,
    urlIndex (world (m w)) = urlIndex w
    /\ options (cs (this (world (m w)))) = options (cs (this w))
    /\ isPlivoSocketConnected (this (world (m w))) = isPlivoSocketConnected (this w)
    /\ filter isInvokeLoginCallback (effects (m w)) = []
    /\ (loginCallback (cs (this (world (m w)))) = None
        \/ loginCallback (cs (this (world (m w)))) = loginCallback (cs (this w))).
(** ** Theorems *)

Local Open Scope list_scope.

(** *** JavaScript strings and numbers *)

Example split_semicolon :
  Js.split ";" "abc; exp=1700000000" = ["abc"; " exp=1700000000"].
Proof. reflexivity. Qed.

Example split_of_empty : Js.split "," "" = [""].
Proof. reflexivity. Qed.

Example StringToNumber_padded : Js.StringToNumber " 1700000000 " = Js.Int 1700000000.
Proof. reflexivity. Qed.

Example StringToNumber_letters : Js.StringToNumber "abc" = Js.NaN.
Proof. reflexivity. Qed.

Example parseInt10_prefix : Js.parseInt10 (Js.Str "401;x") = Js.Int 401.
Proof. reflexivity. Qed.

Example parseInt10_undefined : Js.parseInt10 Js.Undefined = Js.NaN.
Proof. reflexivity. Qed.

Example int_toString_1006 : Js.int_toString 1006 = "1006".
Proof. reflexivity. Qed.

(** *** Running handlers in sequence *)

Lemma sequence_world :
  forall (h : M unit) (hs : list (M unit)) (w : World),
    world (sequence (h :: hs) w) = world (sequence hs (world (h w))).
Proof.
  intros h hs w. cbn [sequence].
  destruct (h w) as [k w1 e1]. cbn [world].
  destruct (sequence hs w1). reflexivity.
Qed.

Lemma sequence_effects :
  forall (h : M unit) (hs : list (M unit)) (w : World),
    effects (sequence (h :: hs) w)
    = (effects (h w) ++ effects (sequence hs (world (h w))))%list.
Proof.
  intros h hs w. cbn [sequence].
  destruct (h w) as [k w1 e1]. cbn [world effects].
  destruct (sequence hs w1). reflexivity.
Qed.

(** *** Registration failure while disconnected *)

(** C9. A [registrationFailed] event that arrives while the connection
    state is DISCONNECTED and the client is still marked logged-in leaves
    the whole world as it was (logged-in flag, stored user name and
    password, connection info, timers) and emits nothing, so no
    login-failed notification either. *)
Theorem registrationFailed_stale_is_ignored :
  forall (getErrorString : Js.number -> string)
         (error : RegistrationFailedEvent.t) (w : World),
    state (connectionInfo (cs (this w))) = DISCONNECTED ->
    isLoggedIn (cs (this w)) = true ->
    _onRegistrationFailed getErrorString error w = mkOutcome (Normal tt) w [].
Proof.
  intros g error w Hstate Hlogged. open_world w.
  cbn in Hstate, Hlogged. subst st logged. reflexivity.
Qed.

Lemma registrationFailed_stale_is_ignored_witness :
  state (connectionInfo (cs (this staleFailureWorld))) = DISCONNECTED /\
  isLoggedIn (cs (this staleFailureWorld)) = true /\
  _onRegistrationFailed errorString0 failure403 staleFailureWorld
  = mkOutcome (Normal tt) staleFailureWorld [].
Proof.
  split; [reflexivity | split; [reflexivity |]].
  apply (registrationFailed_stale_is_ignored errorString0 failure403 staleFailureWorld);
    reflexivity.
Defined.

(** The same event in any other situation does change the state: the
    client is marked logged out and a login-failed notification goes out. *)
Example registrationFailed_otherwise :
  let r := _onRegistrationFailed errorString0 failure403
             (withCs (set_isLoggedIn true) world0) in
  isLoggedIn (cs (this (world r))) = false /\
  effects r = [Emit (onLoginFailed "Rejected")].
Proof. split; reflexivity. Qed.

(** *** Unregistration *)

(** C10. Every [unregistered] event emits exactly one [onConnectionChange]
    notification, also when the state was DISCONNECTED already; the
    connection info becomes DISCONNECTED/"unregistered" when the state
    before was CONNECTED or the initial empty state and is left as it was
    otherwise, and the notification carries it. *)
Theorem unregistered_always_notifies :
  forall (C : Constants) (now : Z) (w : World),
    let r := _onUnRegistered C now w in
    filter isConnectionChange (effects r)
    = [Emit (onConnectionChange (afterUnregistered (connectionInfo (cs (this w)))))]
    /\ connectionInfo (cs (this (world r)))
       = afterUnregistered (connectionInfo (cs (this w))).
Proof.
  intros C now w. open_world w.
  destruct st, logoutCalled, ring as [[[|]]|], ringback as [[[|]]|], interval;
    split; reflexivity.
Qed.

Example unregistered_while_disconnected :
  effects (_onUnRegistered C0 7 staleFailureWorld)
  = [Emit (onConnectionChange (mkConnectionInfo DISCONNECTED "1006"))].
Proof. reflexivity. Qed.

(** *** Disconnection: connection info and the pending login *)

Lemma onDisconnected_state :
  forall (C : Constants) (evt : DisconnectedEvent.t) (w : World),
    let r := _onDisconnected C evt w in
    connectionInfo (cs (this (world r)))
    = afterDisconnected evt (connectionInfo (cs (this w)))
    /\ loginCallback (cs (this (world r))) = None
    /\ filter isInvokeLoginCallback (effects r)
       = match loginCallback (cs (this w)) with
         | Some cb => [InvokeLoginCallback cb]
         | None => []
         end
    /\ options (cs (this (world r))) = options (cs (this w))
    /\ urlIndex (world r)
       = if DisconnectedEvent.ignoreReconnection evt then urlIndex w
         else if (List.length (wsServers C (cs (this w))) <=? S (urlIndex w))%nat
              then 0%nat else S (urlIndex w).
Proof.
  intros C [code ignore] w. open_world w.
  unfold afterDisconnected, _onDisconnected, setupUAConfig, sendReInvite.
  run_handler.
  destruct code as [[|p|p]|], connected, callback, ignore; cbn;
    try (destruct (List.length _ <=? S cursor)%nat; cbn);
    try (destruct ua; cbn);
    try (destruct current; cbn);
    repeat split; reflexivity.
Qed.

(** C8 (amended). On a [disconnected] event whose code is present and not
    zero the connection info becomes DISCONNECTED with the code, as a
    decimal string, as reason; an event without a code leaves the
    connection info as it was.  On every event a queued pending-login
    callback is invoked exactly once and the slot is empty afterwards; with
    no callback queued none is invoked. *)
Theorem disconnected_records_code_and_runs_callback :
  forall (C : Constants) (evt : DisconnectedEvent.t) (w : World),
    let r := _onDisconnected C evt w in
    connectionInfo (cs (this (world r)))
    = match DisconnectedEvent.code evt with
      | Some code =>
          if code =? 0 then connectionInfo (cs (this w))
          else mkConnectionInfo DISCONNECTED (Js.int_toString code)
      | None => connectionInfo (cs (this w))
      end
    /\ loginCallback (cs (this (world r))) = None
    /\ filter isInvokeLoginCallback (effects r)
       = match loginCallback (cs (this w)) with
         | Some cb => [InvokeLoginCallback cb]
         | None => []
         end.
Proof.
  intros C evt w r.
  destruct (onDisconnected_state C evt w) as (Hinfo & Hcb & Hcalls & _).
  repeat split; assumption.
Qed.

(** C8, as stated, fails: a [disconnected] event without a code reaches a
    registered client, and the connection state is still CONNECTED with
    reason "registered" afterwards. *)
Lemma disconnected_without_code_not_recorded :
  connectionInfo
    (cs (this (world (_onDisconnected C0 disconnectWithoutCode registeredWorld))))
  = mkConnectionInfo CONNECTED "registered"
  /\ state
       (connectionInfo
          (cs (this (world (_onDisconnected C0 disconnectWithoutCode registeredWorld)))))
     <> DISCONNECTED.
Proof. split; [reflexivity | discriminate]. Qed.

Example disconnected_1006 :
  let r := _onDisconnected C0 disconnect1006 registeredWorld in
  connectionInfo (cs (this (world r))) = mkConnectionInfo DISCONNECTED "1006"
  /\ filter isInvokeLoginCallback (effects r) = [InvokeLoginCallback 1%nat]
  /\ urlIndex (world r) = 1%nat.
Proof. repeat split. Qed.

(** *** Endpoint failover *)

(** [setupUAConfig] leaves the cursor inside a list that is not empty. *)
Lemma setupUAConfig_cursorInRange :
  forall (C : Constants) (w : World),
    wsServers C (cs (this w)) <> [] ->
    cursorInRange C (world (setupUAConfig C w)).
Proof.
  intros C w Hne. open_world w.
  unfold cursorInRange, setupUAConfig, wsServers in *. run_handler. cbn in Hne.
  match goal with
  | |- context [(List.length ?l <=? cursor)%nat] =>
      destruct (Nat.leb_spec (List.length l) cursor); cbn;
      [destruct l; [congruence | cbn; lia] | lia]
  end.
Qed.

Lemma advance_is_mod :
  forall i len : nat,
    (i < len)%nat ->
    (if (len <=? S i)%nat then 0%nat else S i) = ((i + 1) mod len)%nat.
Proof.
  intros i len Hlt.
  destruct (Nat.leb_spec len (S i)).
  - assert (len = i + 1)%nat as -> by lia.
    symmetry. apply Nat.Div0.mod_same.
  - rewrite Nat.mod_small by lia. lia.
Qed.

Lemma wsServers_options :
  forall (C : Constants) (c c' : Client),
    options c' = options c -> wsServers C c' = wsServers C c.
Proof. intros C c c' H. unfold wsServers. now rewrite H. Qed.

(** C2. Handling a [disconnected] event that is not flagged "ignore
    reconnection" moves the endpoint cursor one step forward with
    wraparound; so a run of [n] such events, started with the cursor inside
    the endpoint list, ends with cursor [(cursor + n) mod len].  With
    endpoints [w0, w1, w2] and cursor 0, two events leave the cursor at 2. *)
Theorem disconnected_advances_cursor :
  forall (C : Constants) (evts : list DisconnectedEvent.t) (w : World),
    Forall reconnects evts ->
    cursorInRange C w ->
    urlIndex (world (sequence (map (_onDisconnected C) evts) w))
    = ((urlIndex w + List.length evts) mod List.length (wsServers C (cs (this w))))%nat.
Proof.
  intros C evts.
  induction evts as [|evt evts IH]; intros w Hall Hin.
  - cbn. rewrite Nat.add_0_r. symmetry. apply Nat.mod_small. exact Hin.
  - inversion Hall as [|? ? Hevt Hrest]; subst.
    destruct (onDisconnected_state C evt w) as (_ & _ & _ & Hopts & Hidx).
    unfold reconnects in Hevt. rewrite Hevt in Hidx.
    rewrite (advance_is_mod _ _ Hin) in Hidx.
    pose proof (wsServers_options C _ _ Hopts) as Hws.
    cbn [map]. rewrite sequence_world.
    rewrite IH; [| exact Hrest |].
    + rewrite Hws, Hidx. cbn [List.length].
      rewrite Nat.Div0.add_mod_idemp_l. f_equal. lia.
    + unfold cursorInRange. rewrite Hws, Hidx.
      apply Nat.mod_upper_bound. unfold cursorInRange in Hin. lia.
Qed.

Lemma disconnected_advances_cursor_witness :
  Forall reconnects [disconnect1006; disconnectWithoutCode] /\
  cursorInRange C0 world0 /\
  wsServers C0 (cs (this world0)) = ["w0"; "w1"; "w2"] /\
  urlIndex world0 = 0%nat /\
  urlIndex (world (sequence (map (_onDisconnected C0)
                               [disconnect1006; disconnectWithoutCode]) world0))
  = 2%nat.
Proof.
  assert (H1 : Forall reconnects [disconnect1006; disconnectWithoutCode])
    by (repeat constructor).
  assert (H2 : cursorInRange C0 world0) by (unfold cursorInRange, wsServers; cbn; lia).
  split; [exact H1 |]. split; [exact H2 |].
  split; [reflexivity |]. split; [reflexivity |].
  exact (disconnected_advances_cursor C0 [disconnect1006; disconnectWithoutCode]
           world0 H1 H2).
Defined.

(** *** Admission of new RTC sessions *)

Lemma Map_size_positive :
  forall m : InviteMap, negb (Map_size m =? 0) = (0 <? Map_size m).
Proof.
  intros m. unfold Map_size.
  destruct m; cbn; [reflexivity|].
  destruct (Z.ltb_spec 0 (Z.pos (Pos.of_succ_nat (List.length m)))); [reflexivity | lia].
Qed.

Lemma validateRTCSession_run :
  forall (C : Constants) (w : World),
    let c := atDecision (cs (this w)) in
    _validateRTCSession C w
    = mkOutcome (Normal (negb (admissionRejects C c)))
        (mkWorld (urlIndex w) (set_cs c (this w)))
        (if admissionRejects C c then busyHere else []).
Proof.
  intros C w. unfold _validateRTCSession, admissionRejects, atDecision, busyHere.
  run_handler.
  set (c := purgeEndedInvites (dropStalePrimary (cs (this w)))).
  rewrite <- Map_size_positive.
  destruct ((isSome (_currentSession c) || negb (Map_size (incomingInvites c) =? 0))
            && negb (allowMultipleIncomingCalls (options c))
            || (NUMBER_OF_SIMULTANEOUS_INCOMING_CALLS_ALLOWED C
                <=? Map_size (incomingInvites c))); reflexivity.
Qed.

(** C1. A new RTC session event is refused exactly when, at the moment of
    the decision, (a primary session or a pending invite exists and
    multiplexing is disabled) or the number of pending invites has reached
    the ceiling: the handler then terminates the offered session with
    status 486 and reason "Busy Here" and creates no session.  Otherwise it
    creates an inbound session for a remote originator and an outbound
    session for a local one. *)
Theorem newRTCSession_busy_or_session :
  forall (C : Constants) (evt : NewRTCSessionEvent.t) (now : Z) (w : World),
    let c := atDecision (cs (this w)) in
    let r := _onNewRTCSession C evt now w in
    completion r = Normal tt
    /\ effects r
       = (announce evt
          ++ (if admissionRejects C c then busyHere
              else sessionFor (NewRTCSessionEvent.originator evt)))%list
    /\ cs (this (world r))
       = if admissionRejects C c then c else set_mediaSetup_init (Some now) c.
Proof.
  intros C evt now w c r. subst r.
  unfold _onNewRTCSession, announce, sessionFor.
  destruct (NewRTCSessionEvent.originator evt);
    unfold bind, call, ret, modifyCs, modifyThis; cbn;
    rewrite validateRTCSession_run; fold c;
    destruct (admissionRejects C c); cbn; repeat split; reflexivity.
Qed.

(** Scenario: a primary session is active and multiplexing is disabled. *)
Example busy_while_on_call :
  effects (_onNewRTCSession C0 inboundInvite 5
             (withCs (set__currentSession (Some (callSessionIn "x" "stable" false)))
                world0))
  = [CreateStatsSocket; SetSipCallID ""; Session_terminate 486 "Busy Here"].
Proof. reflexivity. Qed.

Example idle_accepts_inbound :
  effects (_onNewRTCSession C0 inboundInvite 5 world0)
  = [CreateStatsSocket; AddMidAttribute; CreateIncomingSession].
Proof. reflexivity. Qed.

Example idle_accepts_outbound :
  effects (_onNewRTCSession C0 outboundCall 5 world0)
  = [SetSipCallID "call-2"; CreateStatsSocket; CreateOutgoingSession].
Proof. reflexivity. Qed.

(** *** Clean-up before the decision *)

Lemma Map_delete_absent :
  forall (k : string) (m : InviteMap),
    ~ In k (map fst m) -> Map_delete k m = m.
Proof.
  intros k m. induction m as [|[k' v] m IH]; intros Hnot; cbn in *.
  - reflexivity.
  - destruct (String.eqb_spec k' k) as [->|Hne]; cbn.
    + exfalso. apply Hnot. now left.
    + f_equal. apply IH. intros Hin. apply Hnot. now right.
Qed.

Lemma Map_has_present :
  forall (k : string) (v : CallSession.t) (pre rest : InviteMap),
    Map_has k (pre ++ (k, v) :: rest) = true.
Proof.
  intros k v pre rest. unfold Map_has.
  rewrite existsb_app. cbn. rewrite String.eqb_refl.
  now rewrite orb_true_r.
Qed.

(** On a well-keyed map the loop keeps the entries already passed and, of
    those still to visit, exactly the invites that have not ended. *)
Lemma forEach_deleteEnded_filter :
  forall (todo pre : InviteMap),
    NoDup (map fst (pre ++ todo)) ->
    Forall (fun e => fst e = CallSession.callUUID (snd e)) todo ->
    forEach_deleteEnded todo (pre ++ todo) = (pre ++ filter stillPending todo)%list.
Proof.
  induction todo as [|[k invite] rest IH]; intros pre Hnodup Hkeyed.
  - reflexivity.
  - inversion Hkeyed as [|? ? Hk Hrest]; subst. cbn in Hk.
    cbn [forEach_deleteEnded]. rewrite Map_has_present.
    unfold stillPending at 1. cbn [filter snd].
    rewrite map_app in Hnodup. cbn in Hnodup.
    destruct (isEnded (CallSession.session invite)); cbn [negb].
    + rewrite <- Hk.
      assert (Hdel : Map_delete k (pre ++ (k, invite) :: rest) = (pre ++ rest)%list).
      { unfold Map_delete. rewrite filter_app. cbn. rewrite String.eqb_refl. cbn.
        fold (Map_delete k pre). fold (Map_delete k rest).
        rewrite !Map_delete_absent; [reflexivity | |].
        - apply NoDup_remove_2 in Hnodup. intros Hin. apply Hnodup.
          apply in_or_app. now right.
        - apply NoDup_remove_2 in Hnodup. intros Hin. apply Hnodup.
          apply in_or_app. now left. }
      rewrite Hdel. apply IH; [| exact Hrest].
      rewrite map_app. now apply NoDup_remove_1 in Hnodup.
    + replace (pre ++ (k, invite) :: rest)%list
        with ((pre ++ [(k, invite)]) ++ rest)%list
        by (rewrite <- app_assoc; reflexivity).
      rewrite IH; [now rewrite <- app_assoc | | exact Hrest].
      rewrite <- app_assoc, map_app. exact Hnodup.
Qed.

Lemma purgeEndedInvites_filter :
  forall c : Client,
    wellKeyed (incomingInvites c) ->
    incomingInvites (purgeEndedInvites c) = filter stillPending (incomingInvites c).
Proof.
  intros c [Hnodup Hkeyed]. unfold purgeEndedInvites.
  destruct (incomingInvites c) as [|e m] eqn:Hm.
  - cbn. rewrite Hm. reflexivity.
  - replace (negb (Map_size (e :: m) =? 0)) with true
      by (unfold Map_size; cbn; reflexivity).
    destruct c; cbn in *.
    apply (forEach_deleteEnded_filter (e :: m) []); assumption.
Qed.

Lemma purgeEndedInvites_frame :
  forall c : Client,
    _currentSession (purgeEndedInvites c) = _currentSession c
    /\ callSession (purgeEndedInvites c) = callSession c
    /\ callUUID (purgeEndedInvites c) = callUUID c
    /\ callDirection (purgeEndedInvites c) = callDirection c
    /\ options (purgeEndedInvites c) = options c.
Proof.
  intros c. unfold purgeEndedInvites.
  destruct (negb (Map_size (incomingInvites c) =? 0)); repeat split; reflexivity.
Qed.

Lemma purgeEndedInvites_invites :
  forall c c' : Client,
    incomingInvites c' = incomingInvites c ->
    incomingInvites (purgeEndedInvites c') = incomingInvites (purgeEndedInvites c).
Proof.
  intros c c' H. unfold purgeEndedInvites. rewrite H.
  destruct (negb (Map_size (incomingInvites c) =? 0)); cbn; [reflexivity | exact H].
Qed.

Lemma dropStalePrimary_frame :
  forall c : Client,
    incomingInvites (dropStalePrimary c) = incomingInvites c
    /\ options (dropStalePrimary c) = options c.
Proof.
  intros c. unfold dropStalePrimary.
  destruct (primaryIsStale c); split; reflexivity.
Qed.

Lemma dropStalePrimary_stale :
  forall c : Client,
    primaryIsStale c = true ->
    _currentSession (dropStalePrimary c) = None
    /\ callSession (dropStalePrimary c) = None
    /\ callUUID (dropStalePrimary c) = None
    /\ callDirection (dropStalePrimary c) = None.
Proof.
  intros c H. unfold dropStalePrimary. rewrite H. repeat split; reflexivity.
Qed.

Lemma admissionRejects_ext :
  forall (C : Constants) (c c' : Client),
    _currentSession c' = _currentSession c ->
    incomingInvites c' = incomingInvites c ->
    options c' = options c ->
    admissionRejects C c' = admissionRejects C c.
Proof.
  intros C c c' H1 H2 H3. unfold admissionRejects. now rewrite H1, H2, H3.
Qed.

(** C7. [_validateRTCSession] decides on the client as it is after the
    clean-up: when the primary session's connection has signaling state
    "closed", the primary-session reference, the call session, the call
    identifier and the call direction are empty by then; the pending
    invites are those of before whose session has not ended; and the
    result is the refusal condition evaluated on that client.  So with a
    stale primary session the decision is the one taken with no primary
    session at all. *)
Theorem stale_state_cleared_before_decision :
  forall (C : Constants) (w : World),
    wellKeyed (incomingInvites (cs (this w))) ->
    let c := cs (this w) in
    let r := _validateRTCSession C w in
    let c' := cs (this (world r)) in
    (primaryIsStale c = true ->
     _currentSession c' = None /\ callSession c' = None
     /\ callUUID c' = None /\ callDirection c' = None)
    /\ incomingInvites c' = filter stillPending (incomingInvites c)
    /\ completion r = Normal (negb (admissionRejects C c'))
    /\ (primaryIsStale c = true ->
        completion r
        = completion (_validateRTCSession C (withCs (set__currentSession None) w))).
Proof.
  intros C w Hkeyed c r c'.
  assert (Hc' : c' = atDecision c).
  { subst c' r. rewrite validateRTCSession_run. destruct w as [i a]. destruct a.
    reflexivity. }
  assert (Hr : completion r = Normal (negb (admissionRejects C (atDecision c)))).
  { subst r. rewrite validateRTCSession_run. reflexivity. }
  destruct (purgeEndedInvites_frame (dropStalePrimary c))
    as (Hcur & Hsess & Huuid & Hdir & Hopts).
  destruct (dropStalePrimary_frame c) as (Hinv & Hopts').
  rewrite Hc'. unfold atDecision.
  split; [| split; [| split]].
  - intros Hstale.
    destruct (dropStalePrimary_stale c Hstale) as (H1 & H2 & H3 & H4).
    rewrite Hcur, Hsess, Huuid, Hdir. auto.
  - rewrite purgeEndedInvites_filter; rewrite Hinv; [reflexivity | exact Hkeyed].
  - exact Hr.
  - intros Hstale. rewrite Hr. rewrite validateRTCSession_run. cbn [completion].
    do 2 f_equal. unfold atDecision.
    destruct (dropStalePrimary_stale c Hstale) as (H1 & _).
    set (c0 := cs (this (withCs (set__currentSession None) w))).
    assert (Hc0 : _currentSession c0 = None /\ incomingInvites c0 = incomingInvites c
                  /\ options c0 = options c).
    { subst c0 c. destruct w as [i a]. destruct a. repeat split; reflexivity. }
    destruct Hc0 as (Hc0s & Hc0i & Hc0o).
    assert (Hfresh : dropStalePrimary c0 = c0).
    { unfold dropStalePrimary, primaryIsStale. now rewrite Hc0s. }
    rewrite Hfresh.
    destruct (purgeEndedInvites_frame c0) as (Hcur0 & _ & _ & _ & Hopts0).
    symmetry. apply admissionRejects_ext.
    + rewrite Hcur0, Hc0s, Hcur, H1. reflexivity.
    + apply purgeEndedInvites_invites. rewrite Hc0i. symmetry. exact Hinv.
    + rewrite Hopts0, Hc0o, Hopts, Hopts'. reflexivity.
Qed.

Lemma stale_state_cleared_before_decision_witness :
  wellKeyed (incomingInvites (cs (this staleOnlyWorld)))
  /\ primaryIsStale (cs (this staleOnlyWorld)) = true
  /\ _currentSession (cs (this (world (_validateRTCSession C0 staleOnlyWorld)))) = None
  /\ incomingInvites (cs (this (world (_validateRTCSession C0 staleOnlyWorld)))) = []
  /\ completion (_validateRTCSession C0 staleOnlyWorld) = Normal true.
Proof.
  assert (Hk : wellKeyed (incomingInvites (cs (this staleOnlyWorld)))).
  { split; [repeat constructor; cbn; intuition | repeat constructor]. }
  split; [exact Hk | split; [reflexivity |]].
  pose proof (stale_state_cleared_before_decision C0 staleOnlyWorld Hk) as H.
  cbv zeta in H. destruct H as (H1 & H2 & H3 & _).
  split; [exact (proj1 (H1 eq_refl)) | split; [exact H2 | exact H3]].
Defined.

(** With a stale primary session, one ended and one live invite: the
    primary session and the ended invite are gone, and the call is refused
    because of the live invite. *)
Example stale_call_with_live_invite :
  incomingInvites (cs (this (world (_validateRTCSession C0 staleCallWorld))))
  = [("b", callSessionIn "b" "stable" false)]
  /\ _currentSession (cs (this (world (_validateRTCSession C0 staleCallWorld)))) = None
  /\ completion (_validateRTCSession C0 staleCallWorld) = Normal false.
Proof. repeat split. Qed.

(** When no primary session is stale and no pending invite has ended, the
    clean-up changes nothing: the decision is taken on the client as the
    event finds it. *)
Lemma forEach_deleteEnded_pending :
  forall (todo m : InviteMap),
    forallb stillPending todo = true -> forEach_deleteEnded todo m = m.
Proof.
  induction todo as [|[k invite] rest IH]; intros m H; cbn in *; [reflexivity|].
  apply andb_true_iff in H. destruct H as [Hhead Hrest].
  unfold stillPending in Hhead. cbn in Hhead. apply negb_true_iff in Hhead.
  rewrite Hhead. destruct (Map_has k m); now apply IH.
Qed.

Lemma atDecision_clean :
  forall c : Client,
    primaryIsStale c = false ->
    forallb stillPending (incomingInvites c) = true ->
    atDecision c = c.
Proof.
  intros c Hstale Hpending. unfold atDecision, dropStalePrimary. rewrite Hstale.
  unfold purgeEndedInvites. rewrite (forEach_deleteEnded_pending _ _ Hpending).
  destruct (negb (Map_size (incomingInvites c) =? 0)); [|reflexivity].
  destruct c; reflexivity.
Qed.

(** *** Registration: the login notification *)

Lemma split_first :
  forall (sep : ascii) (s : string), exists p ps, Js.split sep s = p :: ps.
Proof.
  intros sep s. induction s as [|c r IH]; cbn.
  - eauto.
  - destruct (Ascii.eqb c sep); [eauto|].
    destruct IH as (p & ps & ->). eauto.
Qed.

Lemma expiryTimeInEpoch_first :
  forall (h : Header) (rest : list Header),
    exists segment more,
      Js.split ";" (raw h) = segment :: more
      /\ expiryTimeInEpoch (h :: rest) = Normal (Js.index (Js.split "=" segment) 1).
Proof.
  intros h rest. destruct (split_first ";" (raw h)) as (p & ps & Hsplit).
  exists p, ps. split; [exact Hsplit|].
  unfold expiryTimeInEpoch. rewrite Hsplit. reflexivity.
Qed.

Lemma onRegistered_summary :
  forall (C : Constants) (res : RegisteredEvent.t) (now : Z) (w : World),
    let c := cs (this w) in
    let r := _onRegistered C res now w in
    let c' := cs (this (world r)) in
    completesNormally r = negb (registrationThrows c res)
    /\ onLoginCount (effects r)
       = (if freshLogin c && negb (registrationThrows c res) then 1 else 0)%nat
    /\ isAccessToken c' = isAccessToken c
    /\ freshLogin c'
       = (if registrationThrows c res then freshLogin c else false).
Proof.
  intros C [[hs]] now w. open_world w.
  unfold registrationThrows, emptyJwtHeader, freshLogin, onLoginCount,
    completesNormally, _onRegistered, _onRegistered_login, tiggerNetworkChangeEvent.
  cbn [cs this isAccessToken RegisteredEvent.response headers].
  destruct token.
  - destruct (getHeader "X-Plivo-Jwt" hs) as [[|h rest]|] eqn:Hh.
    + destruct current, muted, callback, logged, loginCalled; run_handler;
        repeat split; reflexivity.
    + destruct (expiryTimeInEpoch_first h rest) as (segment & more & _ & Hv).
      destruct current, muted, callback, logged, loginCalled, stats; run_handler;
        rewrite Hv; cbn; repeat split; reflexivity.
    + destruct current, muted, callback, logged, loginCalled, stats; run_handler;
        repeat split; reflexivity.
  - destruct current, muted, callback, logged, loginCalled, stats; run_handler;
      repeat split; reflexivity.
Qed.

Lemma onLoginCount_app :
  forall t1 t2 : list Effect,
    onLoginCount (t1 ++ t2) = (onLoginCount t1 + onLoginCount t2)%nat.
Proof.
  intros t1 t2. unfold onLoginCount. now rewrite filter_app, length_app.
Qed.

Lemma existsb_pointwise :
  forall (A : Type) (f g : A -> bool) (l : list A),
    (forall a, f a = g a) -> existsb f l = existsb g l.
Proof.
  intros A f g l H. induction l as [|a l IH]; cbn; [reflexivity|].
  now rewrite H, IH.
Qed.

Lemma registrations_count :
  forall (C : Constants) (evs : list (RegisteredEvent.t * Z)) (w : World),
    onLoginCount (effects (registrations C evs w))
    = (if freshLogin (cs (this w))
          && existsb (fun ev => negb (registrationThrows (cs (this w)) (fst ev))) evs
       then 1 else 0)%nat.
Proof.
  intros C evs. unfold registrations.
  induction evs as [|[res now] evs IH]; intros w.
  - cbn. now rewrite andb_false_r.
  - cbn [map fst snd existsb]. rewrite sequence_effects, onLoginCount_app, IH.
    destruct (onRegistered_summary C res now w) as (_ & Hcount & Htoken & Hfresh).
    rewrite Hcount, Hfresh.
    assert (Hthrows : forall ev,
               registrationThrows (cs (this (world (_onRegistered C res now w)))) ev
               = registrationThrows (cs (this w)) ev)
      by (intros ev; unfold registrationThrows; now rewrite Htoken).
    rewrite (existsb_pointwise _ _ _ evs (fun ev => f_equal negb (Hthrows (fst ev)))).
    destruct (registrationThrows (cs (this w)) res); cbn [negb orb].
    + rewrite andb_false_r. reflexivity.
    + rewrite andb_true_r.
      destruct (freshLogin (cs (this w))); reflexivity.
Qed.

(** C5. The [onLogin] notification is emitted once by a [registered] event
    that arrives while a fresh login is in flight (login called, client not
    logged in) and is handled to its end, and not at all by any other
    [registered] event, in particular not by the registration that follows
    a network change of a client already logged in or on a call.  Over a
    run of [registered] events the notification is therefore emitted once
    if the run starts with a fresh login in flight and one of its events is
    handled to its end, and never otherwise. *)
Theorem onLogin_once_per_fresh_login :
  forall C : Constants,
    (forall (res : RegisteredEvent.t) (now : Z) (w : World),
        onLoginCount (effects (_onRegistered C res now w))
        = (if freshLogin (cs (this w)) && negb (registrationThrows (cs (this w)) res)
           then 1 else 0)%nat)
    /\ (forall (evs : list (RegisteredEvent.t * Z)) (w : World),
           onLoginCount (effects (registrations C evs w))
           = (if freshLogin (cs (this w))
                 && existsb (fun ev => negb (registrationThrows (cs (this w)) (fst ev))) evs
              then 1 else 0)%nat).
Proof.
  intros C. split.
  - intros res now w.
    destruct (onRegistered_summary C res now w) as (_ & Hcount & _). exact Hcount.
  - apply registrations_count.
Qed.

Example fresh_login_then_refresh :
  onLoginCount (effects (registrations C0 [(plainResponse, 1); (plainResponse, 2);
                                            (plainResponse, 3)] loginWorld))
  = 1%nat.
Proof. reflexivity. Qed.

Example reconnect_on_call_is_silent :
  let r := _onRegistered C0 plainResponse 9
             (withCs (set_isLoggedIn false) reconnectedOnCallWorld) in
  onLoginCount (effects r) = 0%nat
  /\ In (FetchIPAddress NetworkChangeEvent) (effects r).
Proof. split; [reflexivity | cbn; tauto]. Qed.

(** *** Registration: the token expiry *)

Lemma string_app_empty :
  forall s : string, (s ++ "")%string = s.
Proof.
  induction s as [|c r IH]; cbn; [reflexivity | now rewrite IH].
Qed.

Lemma split_lacks :
  forall (sep : ascii) (s : string), lacks sep s = true -> Js.split sep s = [s].
Proof.
  intros sep s. induction s as [|c r IH]; cbn; intros H; [reflexivity|].
  apply andb_true_iff in H. destruct H as [Hc Hr].
  apply negb_true_iff in Hc. rewrite Hc, (IH Hr). reflexivity.
Qed.

(** A prefix without the separator stays in the first piece. *)
Lemma split_app_lacks :
  forall (sep : ascii) (a b p : string) (ps : list string),
    lacks sep a = true ->
    Js.split sep b = p :: ps ->
    Js.split sep (a ++ b) = (a ++ p)%string :: ps.
Proof.
  intros sep a b p ps. induction a as [|c r IH]; cbn; intros Ha Hb.
  - exact Hb.
  - apply andb_true_iff in Ha. destruct Ha as [Hc Hr].
    apply negb_true_iff in Hc. rewrite Hc, (IH Hr Hb). reflexivity.
Qed.

Lemma digit_not_space :
  forall c : ascii, Js.isDigit c = true -> Js.isWhiteSpace c = false.
Proof.
  intros c. unfold Js.isDigit, Js.isWhiteSpace.
  generalize (nat_of_ascii c). intros n H.
  apply andb_true_iff in H. destruct H as [H1 H2].
  apply Nat.leb_le in H1. apply Nat.leb_le in H2.
  apply orb_false_iff. split; [apply orb_false_iff; split|].
  - apply andb_false_iff. right. apply Nat.leb_gt. lia.
  - apply Nat.eqb_neq. lia.
  - apply Nat.eqb_neq. lia.
Qed.

Lemma digit_not_char :
  forall (c sep : ascii),
    Js.isDigit sep = false -> Js.isDigit c = true -> Ascii.eqb c sep = false.
Proof.
  intros c sep Hsep Hc. destruct (Ascii.eqb_spec c sep) as [->|]; [congruence | reflexivity].
Qed.

Lemma digits_lack :
  forall (sep : ascii) (s : string) (acc n : Z),
    Js.isDigit sep = false ->
    Js.digitsValue acc s = Some n -> lacks sep s = true.
Proof.
  intros sep s. induction s as [|c r IH]; cbn; intros acc n Hsep H; [reflexivity|].
  destruct (Js.isDigit c) eqn:Hc; [|discriminate].
  rewrite (digit_not_char c sep Hsep Hc). cbn. eapply IH; eassumption.
Qed.

Lemma digitsValue_bounds :
  forall (s : string) (acc n : Z),
    0 <= acc -> Js.digitsValue acc s = Some n -> acc <= n.
Proof.
  induction s as [|c r IH]; cbn; intros acc n Hacc H.
  - injection H as <-. lia.
  - destruct (Js.isDigit c) eqn:Hc; [|discriminate].
    assert (Hd : 0 <= Js.digit c).
    { unfold Js.isDigit in Hc. unfold Js.digit.
      apply andb_true_iff in Hc. destruct Hc as [H1 _].
      apply Nat.leb_le in H1. lia. }
    assert (Hacc' : 0 <= 10 * acc + Js.digit c) by lia.
    pose proof (IH _ _ Hacc' H). lia.
Qed.

Lemma trimEnd_digits :
  forall (s : string) (acc n : Z),
    Js.digitsValue acc s = Some n -> Js.trimEnd s = s.
Proof.
  induction s as [|c r IH]; cbn; intros acc n H; [reflexivity|].
  destruct (Js.isDigit c) eqn:Hc; [|discriminate].
  rewrite (IH _ _ H). rewrite (digit_not_space c Hc).
  destruct r; reflexivity.
Qed.

Lemma sign_digit :
  forall (c : ascii) (r : string),
    Js.isDigit c = true -> Js.sign (String c r) = (1, String c r).
Proof.
  intros c r H.
  destruct c as [[|] [|] [|] [|] [|] [|] [|] [|]]; try discriminate H; reflexivity.
Qed.

(** A non-empty string of decimal digits converts to the number it
    writes. *)
Lemma StringToNumber_digits :
  forall (s : string) (n : Z),
    s <> ""%string -> Js.digitsValue 0 s = Some n -> n <= Js.MAX_EXACT ->
    Js.StringToNumber s = Js.Int n.
Proof.
  intros s n Hne Hdigits Hmax.
  pose proof (digitsValue_bounds s 0 n (Z.le_refl 0) Hdigits) as Hpos.
  destruct s as [|c r]; [congruence|].
  unfold Js.StringToNumber.
  assert (Hc : Js.isDigit c = true).
  { cbn in Hdigits. destruct (Js.isDigit c); [reflexivity | discriminate]. }
  cbn [Js.trimStart]. rewrite (digit_not_space c Hc).
  rewrite (trimEnd_digits _ _ _ Hdigits).
  rewrite (sign_digit c r Hc). rewrite Hc, Hdigits.
  unfold Js.exact. rewrite Z.mul_1_l, Z.abs_eq by lia.
  destruct (Z.leb_spec n Js.MAX_EXACT); [reflexivity | lia].
Qed.

Lemma onRegistered_expiry :
  forall (C : Constants) (res : RegisteredEvent.t) (now : Z) (w : World)
         (values : list Header) (v : Js.value),
    isAccessToken (cs (this w)) = true ->
    getHeader "X-Plivo-Jwt" (headers (RegisteredEvent.response res)) = Some values ->
    expiryTimeInEpoch values = Normal v ->
    filter isSetExpiry (effects (_onRegistered C res now w))
    = [SetExpiryTimeInEpoch (Js.times (Js.ToNumber v) 1000)].
Proof.
  intros C [[hs]] now w values v Htoken Hh Hv. open_world w.
  cbn in Htoken, Hh. subst token.
  unfold _onRegistered, _onRegistered_login, tiggerNetworkChangeEvent.
  cbn [cs this isAccessToken RegisteredEvent.response headers].
  rewrite Hh.
  destruct current, muted, callback, logged, loginCalled, stats; run_handler;
    rewrite Hv; cbn; reflexivity.
Qed.

Lemma first_segment :
  forall (segment tail : string),
    lacks ";" segment = true ->
    tail = ""%string \/ (exists t, tail = String ";" t) ->
    exists more, Js.split ";" (segment ++ tail) = segment :: more.
Proof.
  intros segment tail Hseg [->|[t ->]].
  - exists []. rewrite string_app_empty. now apply split_lacks.
  - exists (Js.split ";" t).
    rewrite (split_app_lacks ";" segment (String ";" t) "" (Js.split ";" t) Hseg eq_refl).
    now rewrite string_app_empty.
Qed.

Lemma key_value_pieces :
  forall (key value : string),
    lacks "=" key = true -> lacks "=" value = true ->
    Js.split "=" (key ++ "=" ++ value) = [key; value].
Proof.
  intros key value Hkey Hvalue.
  rewrite (split_app_lacks "=" key ("=" ++ value) "" [value] Hkey).
  - now rewrite string_app_empty.
  - cbn. now rewrite (split_lacks "=" value Hvalue).
Qed.

(** C6 (amended). In access-token mode, when the registration response
    carries the [X-Plivo-Jwt] header, the expiry handed to
    [setExpiryTimeInEpoch] is read from the part of the header's first raw
    value before its first [;]: when that segment is a pair [key=value]
    whose value is a decimal number of seconds, the stored expiry is that
    number times 1000; when the segment holds no [=], the stored expiry is
    [NaN]. *)
Theorem token_expiry_from_first_segment :
  forall (C : Constants) (res : RegisteredEvent.t) (now : Z) (w : World)
         (h : Header) (rest : list Header) (segment tail : string),
    isAccessToken (cs (this w)) = true ->
    getHeader "X-Plivo-Jwt" (headers (RegisteredEvent.response res)) = Some (h :: rest) ->
    raw h = (segment ++ tail)%string ->
    lacks ";" segment = true ->
    tail = ""%string \/ (exists t, tail = String ";" t) ->
    (forall (key value : string) (seconds : Z),
        segment = (key ++ "=" ++ value)%string ->
        lacks "=" key = true ->
        value <> ""%string ->
        Js.digitsValue 0 value = Some seconds ->
        seconds * 1000 <= Js.MAX_EXACT ->
        filter isSetExpiry (effects (_onRegistered C res now w))
        = [SetExpiryTimeInEpoch (Js.Int (seconds * 1000))])
    /\ (lacks "=" segment = true ->
        filter isSetExpiry (effects (_onRegistered C res now w))
        = [SetExpiryTimeInEpoch Js.NaN]).
Proof.
  intros C res now w h rest segment tail Htoken Hheader Hraw Hseg Htail.
  destruct (first_segment segment tail Hseg Htail) as [more Hsplit].
  assert (Hexp : expiryTimeInEpoch (h :: rest)
                 = Normal (Js.index (Js.split "=" segment) 1)).
  { unfold expiryTimeInEpoch. rewrite Hraw, Hsplit. reflexivity. }
  pose proof (onRegistered_expiry C res now w _ _ Htoken Hheader Hexp) as Hstored.
  split.
  - intros key value seconds -> Hkey Hne Hdigits Hmax.
    rewrite Hstored.
    assert (Hvalue : lacks "=" value = true)
      by (eapply digits_lack; [reflexivity | exact Hdigits]).
    rewrite (key_value_pieces key value Hkey Hvalue).
    pose proof (digitsValue_bounds value 0 seconds (Z.le_refl 0) Hdigits) as Hpos.
    cbn [Js.index nth_error Js.ToNumber].
    rewrite (StringToNumber_digits value seconds Hne Hdigits) by lia.
    unfold Js.times, Js.exact. rewrite Z.abs_eq by lia.
    destruct (Z.leb_spec (seconds * 1000) Js.MAX_EXACT); [reflexivity | lia].
  - intros Hnone. rewrite Hstored, (split_lacks "=" segment Hnone). reflexivity.
Qed.

Lemma token_expiry_from_first_segment_witness :
  filter isSetExpiry
    (effects (_onRegistered C0 (jwtResponse "exp=1700000000; abc") 0 tokenLoginWorld))
  = [SetExpiryTimeInEpoch (Js.Int 1700000000000)].
Proof.
  refine (proj1 (token_expiry_from_first_segment C0
                   (jwtResponse "exp=1700000000; abc") 0 tokenLoginWorld
                   {| raw := "exp=1700000000; abc" |} [] "exp=1700000000" "; abc"
                   eq_refl eq_refl eq_refl eq_refl (or_intror (ex_intro _ " abc" eq_refl)))
            "exp" "1700000000" 1700000000 eq_refl eq_refl _ eq_refl _).
  - discriminate.
  - vm_compute. discriminate.
Defined.

(** C6, as stated, fails on its own example: for the header value
    [abc; exp=1700000000] the first segment is [abc], which holds no [=],
    and the stored expiry is [NaN], not 1700000000000. *)
Lemma token_expiry_example_is_NaN :
  filter isSetExpiry
    (effects (_onRegistered C0 (jwtResponse "abc; exp=1700000000") 0 tokenLoginWorld))
  = [SetExpiryTimeInEpoch Js.NaN]
  /\ filter isSetExpiry
       (effects (_onRegistered C0 (jwtResponse "abc; exp=1700000000") 0 tokenLoginWorld))
     <> [SetExpiryTimeInEpoch (Js.Int 1700000000000)].
Proof. split; [reflexivity | discriminate]. Qed.

(** *** Login validation *)

(** What [_validate] does, case by case. *)
Lemma validate_outcomes :
  forall (cb : Callback) (onLine : bool) (w : World),
    let r := _validate cb onLine w in
    match credentialsMissing (credentials (this w)) with
    | Throw e => r = mkOutcome (Throw e) w []
    | Normal true =>
        r = mkOutcome (Normal Invalid) w
              [Emit (onLoginFailed "Username and password must be filled out")]
    | Normal false =>
        if isSome (_currentSession (cs (this w))) then
          r = mkOutcome (Normal Invalid) w
                [Emit (onLoginFailed "Cannot login when there is an ongoing call")]
        else if negb onLine then
          r = mkOutcome (Normal Invalid) w
                [Emit (onLoginFailed "Cannot login when there is no internet")]
        else filter isLoginFailed (effects r) = []
    end.
Proof.
  intros cb onLine w. open_world w.
  unfold _validate. run_handler.
  destruct (credentialsMissing _) as [[|]|e]; cbn; try reflexivity.
  destruct current; cbn; [reflexivity|].
  destruct onLine; cbn; [|reflexivity].
  destruct ua; reflexivity.
Qed.

(** C3 fails on empty credentials: with an empty user name and an empty
    password, on an idle client that is online, [_validate] returns [true]
    and emits nothing. *)
Theorem validate_accepts_empty_credentials :
  _validate 1%nat true emptyCredentialsWorld
  = mkOutcome (Normal Valid) emptyCredentialsWorld [].
Proof. reflexivity. Qed.

(** With a [null] password next to a user name, the length test of
    [_validate] throws instead of rejecting. *)
Example validate_throws_on_null_password :
  _validate 1%nat true nullPasswordWorld
  = mkOutcome
      (Throw (TypeError "Cannot read properties of null (reading 'length')"))
      nullPasswordWorld [].
Proof. reflexivity. Qed.

Example validate_rejects_undefined :
  _validate 1%nat true
    (mkWorld 0 (newAccount client0 Js.Undefined Js.Undefined Js.Null 120))
  = mkOutcome (Normal Invalid)
      (mkWorld 0 (newAccount client0 Js.Undefined Js.Undefined Js.Null 120))
      [Emit (onLoginFailed "Username and password must be filled out")].
Proof. reflexivity. Qed.

(** *** Network-change trigger *)

Lemma sequence_app_world :
  forall (hs1 hs2 : list (M unit)) (w : World),
    world (sequence (hs1 ++ hs2) w) = world (sequence hs2 (world (sequence hs1 w))).
Proof.
  induction hs1 as [|h hs1 IH]; intros hs2 w.
  - reflexivity.
  - cbn [app]. rewrite !sequence_world. apply IH.
Qed.

Lemma sequence_app_effects :
  forall (hs1 hs2 : list (M unit)) (w : World),
    effects (sequence (hs1 ++ hs2) w)
    = effects (sequence hs1 w) ++ effects (sequence hs2 (world (sequence hs1 w))).
Proof.
  induction hs1 as [|h hs1 IH]; intros hs2 w.
  - reflexivity.
  - cbn [app]. rewrite !sequence_effects, sequence_world, IH. apply app_assoc.
Qed.

(** A successful activation reports the address and leaves the counter
    one higher than it found it. *)
Lemma activation_resolved :
  forall (C : Constants) (ip : string) (w : World),
    activation C (Fulfilled (Js.Str ip)) w
    = mkOutcome (Normal tt) (withFetchIpCount (fetchIpCount (this w) + 1) w)
        [FetchIPAddress NetworkChangeEvent; SendNetworkChangeEvent ip].
Proof. intros C ip w. open_world w. reflexivity. Qed.

(** An activation whose request yields no address, away from the ceiling,
    schedules a retry. *)
Lemma activation_unresolved :
  forall (C : Constants) (w : World),
    fetchIpCount (this w) + 1 <> IP_ADDRESS_FETCH_RETRY_COUNT C ->
    activation C unresolved w
    = mkOutcome (Normal tt) (withFetchIpCount (fetchIpCount (this w) + 1) w)
        [FetchIPAddress NetworkChangeEvent;
         SetTimeout NetworkChangeRetry ((fetchIpCount (this w) + 1) * 200)].
Proof.
  intros C w Hne. open_world w. cbn in Hne.
  unfold activation, unresolved, tiggerNetworkChangeEvent, tiggerNetworkChangeEvent_then.
  run_handler.
  destruct (Z.eqb_spec (ipCount + 1) (IP_ADDRESS_FETCH_RETRY_COUNT C)); [contradiction|].
  reflexivity.
Qed.

(** At the ceiling the counter goes back to 0 and nothing is reported. *)
Lemma activation_gives_up :
  forall (C : Constants) (w : World),
    fetchIpCount (this w) + 1 = IP_ADDRESS_FETCH_RETRY_COUNT C ->
    activation C unresolved w
    = mkOutcome (Normal tt) (withFetchIpCount 0 w) [FetchIPAddress NetworkChangeEvent].
Proof.
  intros C w Heq. open_world w. cbn in Heq.
  unfold activation, unresolved, tiggerNetworkChangeEvent, tiggerNetworkChangeEvent_then.
  run_handler. rewrite Heq, Z.eqb_refl. reflexivity.
Qed.

Lemma successes_count :
  forall (C : Constants) (n : nat) (w : World),
    fetchIpCount (this (world (activations C (repeat resolved n) w)))
    = fetchIpCount (this w) + Z.of_nat n.
Proof.
  intros C n. unfold activations.
  induction n as [|n IH]; intros w.
  - cbn. lia.
  - cbn [repeat map]. rewrite sequence_world, IH.
    unfold resolved. rewrite activation_resolved.
    destruct w as [i a]. destruct a. cbn. lia.
Qed.

(** C4 fails: a successful activation does not reset the counter.  After
    as many successful activations as the ceiling allows, one more whose
    request yields no address finds the counter above the ceiling and
    schedules yet another retry. *)
Theorem retry_count_exceeds_ceiling :
  forall (C : Constants) (w : World),
    let r := activations C (successesThenFailure C) (withFetchIpCount 0 w) in
    fetchIpCount (this (world r))
    = Z.of_nat (Z.to_nat (IP_ADDRESS_FETCH_RETRY_COUNT C)) + 1
    /\ IP_ADDRESS_FETCH_RETRY_COUNT C < fetchIpCount (this (world r))
    /\ In (SetTimeout NetworkChangeRetry (fetchIpCount (this (world r)) * 200))
         (effects r).
Proof.
  intros C w r. subst r. unfold activations, successesThenFailure.
  rewrite map_app. cbn [map].
  set (n := Z.to_nat (IP_ADDRESS_FETCH_RETRY_COUNT C)).
  set (w1 := world (sequence (map (activation C) (repeat resolved n))
                      (withFetchIpCount 0 w))).
  assert (Hcount : fetchIpCount (this w1) = Z.of_nat n).
  { subst w1. fold (activations C (repeat resolved n) (withFetchIpCount 0 w)).
    rewrite successes_count. destruct w as [i a]. destruct a. reflexivity. }
  assert (Hne : fetchIpCount (this w1) + 1 <> IP_ADDRESS_FETCH_RETRY_COUNT C)
    by (rewrite Hcount; subst n; lia).
  rewrite sequence_app_world, sequence_app_effects. fold w1.
  rewrite sequence_world, sequence_effects.
  rewrite (activation_unresolved C w1 Hne). cbn [world effects sequence ret].
  assert (Hafter : fetchIpCount (this (withFetchIpCount (fetchIpCount (this w1) + 1) w1))
                   = Z.of_nat n + 1).
  { rewrite <- Hcount. destruct w1 as [i a]. destruct a. reflexivity. }
  rewrite Hafter. split; [reflexivity | split; [subst n; lia |]].
  apply in_or_app. right. rewrite Hcount. cbn. tauto.
Qed.

Example success_keeps_the_counter :
  let r := activation C0 resolved world0 in
  fetchIpCount (this (world r)) = 1
  /\ effects r = [FetchIPAddress NetworkChangeEvent;
                  SendNetworkChangeEvent "203.0.113.7"].
Proof. split; reflexivity. Qed.

Example rejection_is_not_retried :
  let r := activation C0 Rejected world0 in
  fetchIpCount (this (world r)) = 1
  /\ effects r = [FetchIPAddress NetworkChangeEvent].
Proof. split; reflexivity. Qed.

Example three_failures_give_up :
  let r := activations C0 [unresolved; unresolved; unresolved] world0 in
  fetchIpCount (this (world r)) = 0
  /\ effects r = [FetchIPAddress NetworkChangeEvent;
                  SetTimeout NetworkChangeRetry 200;
                  FetchIPAddress NetworkChangeEvent;
                  SetTimeout NetworkChangeRetry 400;
                  FetchIPAddress NetworkChangeEvent].
Proof. split; reflexivity. Qed.

(** ** Further properties of the account *)

(** *** Disconnection *)

(** X1. A [disconnected] event flagged "ignore reconnection" completes
    without touching the transport: the endpoint cursor, the socket and
    the user agent stay as they were, and nothing is sent but the queued
    login callback, if there is one. *)
Theorem disconnected_ignored_leaves_transport :
  forall (C : Constants) (evt : DisconnectedEvent.t) (w : World),
    DisconnectedEvent.ignoreReconnection evt = true ->
    let r := _onDisconnected C evt w in
    completion r = Normal tt
    /\ urlIndex (world r) = urlIndex w
    /\ plivoSocket (cs (this (world r))) = plivoSocket (cs (this w))
    /\ phone (cs (this (world r))) = phone (cs (this w))
    /\ effects r
       = match loginCallback (cs (this w)) with
         | Some cb => [InvokeLoginCallback cb]
         | None => []
         end.
Proof.
  intros C [code ignore] w Hignore. cbn in Hignore. subst ignore. open_world w.
  unfold _onDisconnected. run_handler.
  destruct code as [[|p|p]|], connected, callback; repeat split; reflexivity.
Qed.

Lemma disconnected_ignored_leaves_transport_witness :
  DisconnectedEvent.ignoreReconnection teardown = true
  /\ urlIndex (world (_onDisconnected C0 teardown registeredWorld)) = 0%nat
  /\ effects (_onDisconnected C0 teardown registeredWorld) = [InvokeLoginCallback 1%nat].
Proof.
  split; [reflexivity |].
  pose proof (disconnected_ignored_leaves_transport C0 teardown registeredWorld eq_refl)
    as H.
  cbv zeta in H. destruct H as (_ & Hcursor & _ & _ & Htrace).
  split; [exact Hcursor | exact Htrace].
Defined.

(** What a reconnecting [disconnected] event does when the user agent is
    there. *)
Lemma onDisconnected_reconnect_run :
  forall (C : Constants) (evt : DisconnectedEvent.t) (w : World) (agent : UA),
    reconnects evt ->
    phone (cs (this w)) = Some agent ->
    let r := _onDisconnected C evt w in
    let next := if (List.length (wsServers C (cs (this w))) <=? S (urlIndex w))%nat
                then 0%nat else S (urlIndex w) in
    let socket := {| url := Js.index (wsServers C (cs (this w))) next |} in
    exists cfg,
      SipConfig.sockets cfg = [socket]
      /\ completion r = Normal tt
      /\ plivoSocket (cs (this (world r))) = Some socket
      /\ effects r
         = match loginCallback (cs (this w)) with
           | Some cb => [InvokeLoginCallback cb]
           | None => []
           end
           ++ [SocketReconnectionRetry; NewWebSocketInterface (url socket);
               Phone_createNewUATransport cfg; Phone_start]
           ++ match _currentSession (cs (this w)) with
              | Some _ => [Session_replaceUA agent; SetTimeout ReinviteTask 0]
              | None => []
              end.
Proof.
  intros C [code ignore] w agent Hre Hphone. unfold reconnects in Hre.
  cbn in Hre. subst ignore. open_world w. cbn in Hphone. subst ua.
  unfold _onDisconnected, setupUAConfig, sendReInvite. run_handler.
  destruct code as [[|p|p]|], connected, callback; cbn;
    destruct (List.length _ <=? S cursor)%nat; cbn;
    destruct current; cbn;
    eexists; repeat split; reflexivity.
Qed.

(** X2. A reconnecting [disconnected] event, with the cursor inside the
    endpoint list and the user agent in place, opens the socket of the
    next endpoint (with wraparound), hands the user agent a configuration
    built on that socket, starts it, and only then, during a call,
    replaces the session's user agent and defers one re-INVITE. *)
Theorem disconnected_opens_next_endpoint :
  forall (C : Constants) (evt : DisconnectedEvent.t) (w : World) (agent : UA),
    reconnects evt ->
    cursorInRange C w ->
    phone (cs (this w)) = Some agent ->
    let r := _onDisconnected C evt w in
    let next := ((urlIndex w + 1) mod List.length (wsServers C (cs (this w))))%nat in
    exists endpoint cfg,
      nth_error (wsServers C (cs (this w))) next = Some endpoint
      /\ SipConfig.sockets cfg = [{| url := Js.Str endpoint |}]
      /\ completion r = Normal tt
      /\ plivoSocket (cs (this (world r))) = Some {| url := Js.Str endpoint |}
      /\ effects r
         = match loginCallback (cs (this w)) with
           | Some cb => [InvokeLoginCallback cb]
           | None => []
           end
           ++ [SocketReconnectionRetry; NewWebSocketInterface (Js.Str endpoint);
               Phone_createNewUATransport cfg; Phone_start]
           ++ match _currentSession (cs (this w)) with
              | Some _ => [Session_replaceUA agent; SetTimeout ReinviteTask 0]
              | None => []
              end.
Proof.
  intros C evt w agent Hre Hin Hphone r next.
  destruct (onDisconnected_reconnect_run C evt w agent Hre Hphone)
    as (cfg & Hsock & Hdone & Hplivo & Htrace).
  rewrite (advance_is_mod _ _ Hin) in Hsock, Hplivo, Htrace. fold next in Hsock, Hplivo, Htrace.
  assert (Hnext : (next < List.length (wsServers C (cs (this w))))%nat).
  { apply Nat.mod_upper_bound. unfold cursorInRange in Hin. lia. }
  destruct (nth_error (wsServers C (cs (this w))) next) as [endpoint|] eqn:Hnth.
  - exists endpoint, cfg. unfold Js.index in Hsock, Hplivo, Htrace.
    rewrite Hnth in Hsock, Hplivo, Htrace. cbn [url] in Htrace.
    repeat split; assumption.
  - apply nth_error_None in Hnth. lia.
Qed.

Lemma disconnected_opens_next_endpoint_witness :
  reconnects disconnect1006
  /\ cursorInRange C0 onCallWorld
  /\ exists cfg,
       effects (_onDisconnected C0 disconnect1006 onCallWorld)
       = [SocketReconnectionRetry; NewWebSocketInterface (Js.Str "w1");
          Phone_createNewUATransport cfg; Phone_start;
          Session_replaceUA 0%nat; SetTimeout ReinviteTask 0].
Proof.
  assert (H1 : reconnects disconnect1006) by reflexivity.
  assert (H2 : cursorInRange C0 onCallWorld)
    by (unfold cursorInRange, wsServers; cbn; lia).
  split; [exact H1 | split; [exact H2 |]].
  destruct (disconnected_opens_next_endpoint C0 disconnect1006 onCallWorld 0%nat
              H1 H2 eq_refl) as (endpoint & cfg & Hnth & _ & _ & _ & Htrace).
  injection Hnth as <-.
  exists cfg. exact Htrace.
Defined.

(** X3. When the user agent is gone, a reconnecting [disconnected] event
    ends in a [TypeError]; by then the connection info is recorded, the
    queued login callback has run, the cursor has moved and the new socket
    is open, but no transport is created and nothing is started. *)
Theorem disconnected_without_user_agent_throws :
  forall (C : Constants) (evt : DisconnectedEvent.t) (w : World),
    reconnects evt ->
    phone (cs (this w)) = None ->
    let r := _onDisconnected C evt w in
    let next := if (List.length (wsServers C (cs (this w))) <=? S (urlIndex w))%nat
                then 0%nat else S (urlIndex w) in
    completion r
    = Throw (TypeError "Cannot read properties of null (reading 'createNewUATransport')")
    /\ urlIndex (world r) = next
    /\ connectionInfo (cs (this (world r)))
       = afterDisconnected evt (connectionInfo (cs (this w)))
    /\ loginCallback (cs (this (world r))) = None
    /\ effects r
       = match loginCallback (cs (this w)) with
         | Some cb => [InvokeLoginCallback cb]
         | None => []
         end
         ++ [SocketReconnectionRetry;
             NewWebSocketInterface (Js.index (wsServers C (cs (this w))) next)].
Proof.
  intros C [code ignore] w Hre Hphone. unfold reconnects in Hre.
  cbn in Hre. subst ignore. open_world w. cbn in Hphone. subst ua.
  unfold _onDisconnected, setupUAConfig, sendReInvite, afterDisconnected. run_handler.
  destruct code as [[|p|p]|], connected, callback; cbn;
    destruct (List.length _ <=? S cursor)%nat; cbn;
    repeat split; reflexivity.
Qed.

Lemma disconnected_without_user_agent_throws_witness :
  reconnects disconnect1006
  /\ phone (cs (this noPhoneWorld)) = None
  /\ urlIndex (world (_onDisconnected C0 disconnect1006 noPhoneWorld)) = 1%nat
  /\ effects (_onDisconnected C0 disconnect1006 noPhoneWorld)
     = [InvokeLoginCallback 1%nat; SocketReconnectionRetry;
        NewWebSocketInterface (Js.Str "w1")].
Proof.
  split; [reflexivity | split; [reflexivity |]].
  pose proof (disconnected_without_user_agent_throws C0 disconnect1006 noPhoneWorld
                eq_refl eq_refl) as H.
  cbv zeta in H. destruct H as (_ & Hcursor & _ & _ & Htrace).
  split; [exact Hcursor | exact Htrace].
Defined.

(** *** Transport configuration *)

(** X4. On an endpoint list that is not empty, [setupUAConfig] leaves the
    cursor on an endpoint of the list, opens the socket of that endpoint
    and returns a configuration built on it; running it again returns the
    same configuration and changes nothing. *)
Theorem setupUAConfig_selects_an_endpoint :
  forall (C : Constants) (w : World),
    wsServers C (cs (this w)) <> [] ->
    let r := setupUAConfig C w in
    exists endpoint cfg,
      nth_error (wsServers C (cs (this w))) (urlIndex (world r)) = Some endpoint
      /\ completion r = Normal cfg
      /\ SipConfig.sockets cfg = [{| url := Js.Str endpoint |}]
      /\ plivoSocket (cs (this (world r))) = Some {| url := Js.Str endpoint |}
      /\ effects r = [NewWebSocketInterface (Js.Str endpoint)]
      /\ setupUAConfig C (world r) = r.
Proof.
  intros C w Hne. open_world w.
  assert (Hlist : exists l, l <> [] /\ forall c', options c' = {| allowMultipleIncomingCalls := multiple;
                                                      registrationDomainSocket := sockets |} ->
                                         wsServers C c' = l).
  { eexists. split; [exact Hne |]. intros c' Hc'. unfold wsServers. now rewrite Hc'. }
  destruct Hlist as (l & Hl & Hws).
  unfold setupUAConfig. run_handler.
  rewrite !Hws by reflexivity.
  destruct (Nat.leb_spec (List.length l) cursor) as [Hle|Hlt]; cbn;
    rewrite ?Hws by reflexivity.
  - destruct l as [|endpoint l]; [congruence|]. cbn.
    rewrite ?Hws by reflexivity. cbn.
    exists endpoint. eexists. repeat split.
  - destruct (nth_error l cursor) as [endpoint|] eqn:Hnth;
      [| apply nth_error_None in Hnth; lia].
    assert (Hleb : (List.length l <=? cursor)%nat = false) by (apply Nat.leb_gt; lia).
    unfold Js.index. rewrite ?Hnth, ?Hleb. cbn.
    rewrite ?Hws by reflexivity. rewrite ?Hnth, ?Hleb. cbn.
    exists endpoint. eexists. repeat split.
Qed.

Lemma setupUAConfig_selects_an_endpoint_witness :
  wsServers C0 (cs (this world0)) <> []
  /\ exists cfg, completion (setupUAConfig C0 world0) = Normal cfg
                 /\ SipConfig.sockets cfg = [{| url := Js.Str "w0" |}].
Proof.
  assert (Hne : wsServers C0 (cs (this world0)) <> []) by discriminate.
  split; [exact Hne |].
  destruct (setupUAConfig_selects_an_endpoint C0 world0 Hne)
    as (endpoint & cfg & Hnth & Hdone & Hsock & _).
  injection Hnth as <-.
  exists cfg. split; [exact Hdone | exact Hsock].
Defined.

Lemma split_concat :
  forall (sep : ascii) (s : string),
    String.concat (String sep "") (Js.split sep s) = s.
Proof.
  intros sep s. induction s as [|c r IH]; [reflexivity|].
  cbn [Js.split].
  destruct (split_first sep r) as (p & ps & Hsplit). rewrite Hsplit in IH |- *.
  destruct (Ascii.eqb_spec c sep) as [->|Hne].
  - change (String.concat (String sep "") ("" :: p :: ps)%list)
      with (String sep (String.concat (String sep "") (p :: ps))).
    now rewrite IH.
  - destruct ps as [|q qs].
    + change (String.concat (String sep "") [String c p]) with (String c p).
      change (String.concat (String sep "") [p]) with p in IH. now rewrite IH.
    + change (String.concat (String sep "") (String c p :: q :: qs))
        with (String c (String.concat (String sep "") (p :: q :: qs))).
      now rewrite IH.
Qed.

Lemma split_length :
  forall (sep : ascii) (s : string),
    List.length (Js.split sep s) = S (occurrences sep s).
Proof.
  intros sep s. induction s as [|c r IH]; [reflexivity|].
  cbn [Js.split occurrences].
  destruct (Ascii.eqb c sep); cbn [List.length]; [now rewrite IH|].
  destruct (split_first sep r) as (p & ps & Hsplit).
  rewrite Hsplit in IH |- *. exact IH.
Qed.

(** X5. A [registrationDomainSocket] given as a string that is not empty
    is cut at its commas and nothing else: joining the endpoints with
    commas gives the string back, and there is one endpoint more than
    there are commas (so blanks around an endpoint and an empty piece
    after a trailing comma are kept as they are). *)
Theorem wsServers_of_string :
  forall (C : Constants) (c : Client) (s : string),
    registrationDomainSocket (options c) = DomainSocketString s ->
    s <> ""%string ->
    String.concat "," (wsServers C c) = s
    /\ List.length (wsServers C c) = S (occurrences "," s).
Proof.
  intros C c s Hopt Hne. unfold wsServers. rewrite Hopt.
  assert (Htruthy : Js.truthy_string s = true).
  { unfold Js.truthy_string. destruct (String.eqb_spec s ""); [contradiction | reflexivity]. }
  rewrite Htruthy. split; [apply split_concat | apply split_length].
Qed.

Lemma wsServers_of_string_witness :
  wsServers C0 (cs (this customEndpointsWorld)) = ["wss://a"; " wss://b"; ""]
  /\ String.concat "," (wsServers C0 (cs (this customEndpointsWorld)))
     = "wss://a, wss://b,"%string
  /\ List.length (wsServers C0 (cs (this customEndpointsWorld))) = 3%nat.
Proof.
  split; [reflexivity |].
  apply (wsServers_of_string C0 (cs (this customEndpointsWorld)) "wss://a, wss://b,");
    [reflexivity | discriminate].
Defined.

(** *** Login validation and the pending login *)

(** X6. A failed validation changes nothing and notifies once:
    [_validate] returns [false] exactly when it emits [onLoginFailed], and
    then the world is as before and the notification is its only effect. *)
Theorem validate_failure_is_clean :
  forall (cb : Callback) (onLine : bool) (w : World),
    let r := _validate cb onLine w in
    (completion r = Normal Invalid <-> filter isLoginFailed (effects r) <> [])
    /\ (completion r = Normal Invalid ->
        world r = w /\ exists why, effects r = [Emit (onLoginFailed why)]).
Proof.
  intros cb onLine w r. subst r.
  pose proof (validate_outcomes cb onLine w) as H. cbv zeta in H.
  destruct (credentialsMissing (credentials (this w))) as [[|]|e].
  - rewrite H. cbn. split; [split; [discriminate | reflexivity] | eauto].
  - destruct (isSome (_currentSession (cs (this w)))).
    + rewrite H. cbn. split; [split; [discriminate | reflexivity] | eauto].
    + destruct (negb onLine) eqn:Hon.
      * rewrite H. cbn. split; [split; [discriminate | reflexivity] | eauto].
      * assert (Hnot : completion (_validate cb onLine w) <> Normal Invalid).
        { destruct onLine; [|discriminate]. open_world w. unfold _validate in *.
          revert H. run_handler.
          destruct (credentialsMissing _) as [[|]|e]; cbn;
            destruct current; cbn; destruct ua; cbn; discriminate. }
        rewrite H. split; [split; [contradiction | congruence] | contradiction].
  - rewrite H. cbn. split; [split; [discriminate | congruence] | discriminate].
Qed.

(** X7. Logging in again while a user agent exists: with credentials in
    place, no call and the network up, [_validate] stops the user agent,
    queues the callback and returns it, and records DISCONNECTED with
    reason "Relogin"; the next [disconnected] event, whatever it carries,
    runs that callback once and empties the slot. *)
Theorem relogin_waits_for_disconnect :
  forall (C : Constants) (cb : Callback) (evt : DisconnectedEvent.t) (w : World)
         (agent : UA),
    credentialsMissing (credentials (this w)) = Normal false ->
    _currentSession (cs (this w)) = None ->
    phone (cs (this w)) = Some agent ->
    let r := _validate cb true w in
    let r' := _onDisconnected C evt (world r) in
    completion r = Normal (Deferred (Some cb))
    /\ effects r = [Phone_stop]
    /\ loginCallback (cs (this (world r))) = Some cb
    /\ connectionInfo (cs (this (world r))) = mkConnectionInfo DISCONNECTED "Relogin"
    /\ filter isInvokeLoginCallback (effects r') = [InvokeLoginCallback cb]
    /\ loginCallback (cs (this (world r'))) = None.
Proof.
  intros C cb evt w agent Hcred Hcall Hphone r r'.
  assert (Hr : completion r = Normal (Deferred (Some cb))
               /\ effects r = [Phone_stop]
               /\ loginCallback (cs (this (world r))) = Some cb
               /\ connectionInfo (cs (this (world r)))
                  = mkConnectionInfo DISCONNECTED "Relogin").
  { subst r r'. open_world w. cbn in Hcred, Hcall, Hphone. subst current ua.
    unfold _validate. run_handler. rewrite Hcred. repeat split; reflexivity. }
  destruct Hr as (H1 & H2 & H3 & H4).
  destruct (onDisconnected_state C evt (world r)) as (_ & Hslot & Hcalls & _).
  fold r' in Hslot, Hcalls. rewrite H3 in Hcalls.
  repeat split; assumption.
Qed.

Lemma relogin_waits_for_disconnect_witness :
  credentialsMissing (credentials (this reloginWorld)) = Normal false
  /\ completion (_validate 7%nat true reloginWorld) = Normal (Deferred (Some 7%nat))
  /\ filter isInvokeLoginCallback
       (effects (_onDisconnected C0 teardown (world (_validate 7%nat true reloginWorld))))
     = [InvokeLoginCallback 7%nat].
Proof.
  split; [reflexivity |].
  pose proof (relogin_waits_for_disconnect C0 7%nat teardown reloginWorld 0%nat
                eq_refl eq_refl eq_refl) as H.
  cbv zeta in H. destruct H as (H1 & _ & _ & _ & H5 & _).
  split; [exact H1 | exact H5].
Defined.

(** *** Registration *)

(** X8. Every [registered] event records CONNECTED with reason
    "registered" and reports it in exactly one [onConnectionChange], and
    empties the pending-login slot without running the callback; when the
    handler runs to its end the client is logged in. *)
Theorem registered_marks_connected :
  forall (C : Constants) (res : RegisteredEvent.t) (now : Z) (w : World),
    let r := _onRegistered C res now w in
    connectionInfo (cs (this (world r))) = mkConnectionInfo CONNECTED "registered"
    /\ filter isConnectionChange (effects r)
       = [Emit (onConnectionChange (mkConnectionInfo CONNECTED "registered"))]
    /\ loginCallback (cs (this (world r))) = None
    /\ filter isInvokeLoginCallback (effects r) = []
    /\ isLoggedIn (cs (this (world r)))
       = (if completesNormally r then true else isLoggedIn (cs (this w))).
Proof.
  intros C [[hs]] now w. open_world w.
  unfold completesNormally, _onRegistered, _onRegistered_login, tiggerNetworkChangeEvent.
  cbn [cs this isAccessToken RegisteredEvent.response headers].
  destruct token.
  - destruct (getHeader "X-Plivo-Jwt" hs) as [[|h rest]|] eqn:Hh.
    + destruct current, muted, callback, logged, loginCalled; run_handler;
        repeat split; reflexivity.
    + destruct (expiryTimeInEpoch_first h rest) as (segment & more & _ & Hv).
      destruct current, muted, callback, logged, loginCalled, stats; run_handler;
        rewrite Hv; cbn; repeat split; reflexivity.
    + destruct current, muted, callback, logged, loginCalled, stats; run_handler;
        repeat split; reflexivity.
  - destruct current, muted, callback, logged, loginCalled, stats; run_handler;
      repeat split; reflexivity.
Qed.

(** X9. The registration that completes a fresh login copies the
    account's credentials to the client, marks it logged in with no login
    in flight, and asks for the telemetry key with the user name and, in
    access-token mode, the client's access token, otherwise the account's
    password. *)
Theorem fresh_login_requests_telemetry_key :
  forall (C : Constants) (res : RegisteredEvent.t) (now : Z) (w : World),
    freshLogin (cs (this w)) = true ->
    registrationThrows (cs (this w)) res = false ->
    let c := cs (this w) in
    let r := _onRegistered C res now w in
    let c' := cs (this (world r)) in
    userName c' = Credentials.userName (credentials (this w))
    /\ password c' = Credentials.password (credentials (this w))
    /\ isLoggedIn c' = true
    /\ isLoginCalled c' = false
    /\ noiseSuppresion c' = true
    /\ filter notSetExpiry (effects r)
       = (if isSome (_currentSession c) && isCallMuted c
          then [StartSpeechRecognition] else [])
         ++ [Emit (onConnectionChange (mkConnectionInfo CONNECTED "registered"));
             NewNoiseSuppression;
             Emit onLogin;
             StartPingPong (NETWORK_CHANGE_INTERVAL_IDLE_STATE C)
               (MESSAGE_CHECK_TIMEOUT_ON_CALL_STATE C);
             ValidateCallStats (Credentials.userName (credentials (this w)))
               (if isAccessToken c then accessToken c
                else Credentials.password (credentials (this w)))
               (isAccessToken c);
             InitCallStatsIO;
             LogSend].
Proof.
  intros C [[hs]] now w Hfresh Hthrows. open_world w.
  unfold freshLogin, registrationThrows, emptyJwtHeader in Hfresh, Hthrows.
  cbn in Hfresh, Hthrows.
  destruct logged; [discriminate|]. destruct loginCalled; [|discriminate].
  unfold notSetExpiry, _onRegistered, _onRegistered_login, tiggerNetworkChangeEvent.
  cbn [cs this isAccessToken RegisteredEvent.response headers].
  destruct token.
  - destruct (getHeader "X-Plivo-Jwt" hs) as [[|h rest]|] eqn:Hh; [discriminate | |].
    + destruct (expiryTimeInEpoch_first h rest) as (segment & more & _ & Hv).
      destruct current, muted, callback; run_handler;
        rewrite Hv; cbn; repeat split; reflexivity.
    + destruct current, muted, callback; run_handler; repeat split; reflexivity.
  - destruct current, muted, callback; run_handler; repeat split; reflexivity.
Qed.

Lemma fresh_login_requests_telemetry_key_witness :
  freshLogin (cs (this loginWorld)) = true
  /\ registrationThrows (cs (this loginWorld)) plainResponse = false
  /\ userName (cs (this (world (_onRegistered C0 plainResponse 1 loginWorld))))
     = Js.Str "alice"
  /\ In (ValidateCallStats (Js.Str "alice") (Js.Str "secret") false)
       (effects (_onRegistered C0 plainResponse 1 loginWorld)).
Proof.
  split; [reflexivity | split; [reflexivity |]].
  pose proof (fresh_login_requests_telemetry_key C0 plainResponse 1 loginWorld
                eq_refl eq_refl) as H.
  cbv zeta in H. destruct H as (Huser & _ & _ & _ & _ & Htrace).
  split; [exact Huser |].
  assert (Hin : In (ValidateCallStats (Js.Str "alice") (Js.Str "secret") false)
                  (filter notSetExpiry (effects (_onRegistered C0 plainResponse 1 loginWorld)))).
  { rewrite Htrace. cbn. tauto. }
  apply filter_In in Hin. exact (proj1 Hin).
Defined.

(** X10. The registration that follows a network change of an idle
    client (not logged in, no login in flight, no call) restarts the
    keep-alive at the idle interval, asks for the public address and marks
    the client logged in; it stops there: the client's stored user name
    and password are not touched, no login notification and no telemetry
    request go out. *)
Theorem reconnect_when_idle :
  forall (C : Constants) (res : RegisteredEvent.t) (now : Z) (w : World),
    awaitsReconnect (cs (this w)) = true ->
    _currentSession (cs (this w)) = None ->
    registrationThrows (cs (this w)) res = false ->
    let c := cs (this w) in
    let r := _onRegistered C res now w in
    let c' := cs (this (world r)) in
    isLoggedIn c' = true
    /\ userName c' = userName c
    /\ password c' = password c
    /\ networkChangeInterval c' = None
    /\ fetchIpCount (this (world r)) = fetchIpCount (this w)
    /\ filter notSetExpiry (effects r)
       = [Emit (onConnectionChange (mkConnectionInfo CONNECTED "registered"));
          ClearInterval (networkChangeInterval c);
          StartPingPong (NETWORK_CHANGE_INTERVAL_IDLE_STATE C)
            (MESSAGE_CHECK_TIMEOUT_ON_CALL_STATE C);
          FetchIPAddress IdleNetworkChange].
Proof.
  intros C [[hs]] now w Hwait Hcall Hthrows. open_world w.
  unfold awaitsReconnect, registrationThrows, emptyJwtHeader in Hwait, Hthrows.
  cbn in Hwait, Hcall, Hthrows. subst current.
  destruct logged; [discriminate|]. destruct loginCalled; [discriminate|].
  unfold notSetExpiry, _onRegistered, _onRegistered_login, tiggerNetworkChangeEvent.
  cbn [cs this isAccessToken RegisteredEvent.response headers].
  destruct token.
  - destruct (getHeader "X-Plivo-Jwt" hs) as [[|h rest]|] eqn:Hh; [discriminate | |].
    + destruct (expiryTimeInEpoch_first h rest) as (segment & more & _ & Hv).
      destruct muted, callback; run_handler;
        rewrite Hv; cbn; repeat split; reflexivity.
    + destruct muted, callback; run_handler; repeat split; reflexivity.
  - destruct muted, callback; run_handler; repeat split; reflexivity.
Qed.

Lemma reconnect_when_idle_witness :
  awaitsReconnect (cs (this idleReconnectWorld)) = true
  /\ userName (cs (this (world (_onRegistered C0 plainResponse 1 idleReconnectWorld))))
     = Js.Str "old"
  /\ effects (_onRegistered C0 plainResponse 1 idleReconnectWorld)
     = [Emit (onConnectionChange (mkConnectionInfo CONNECTED "registered"));
        ClearInterval (Some 3%nat);
        StartPingPong 10000 5000;
        FetchIPAddress IdleNetworkChange].
Proof.
  split; [reflexivity |].
  pose proof (reconnect_when_idle C0 plainResponse 1 idleReconnectWorld
                eq_refl eq_refl eq_refl) as H.
  cbv zeta in H. destruct H as (_ & Huser & _ & _ & _ & Htrace).
  split; [exact Huser | exact Htrace].
Defined.

(** X11. The registration that follows a network change during a call
    restarts the keep-alive at the on-call interval, replaces the
    telemetry socket (disconnecting the old one only when there is one),
    stamps the reconnection time, starts one network-change activation
    (the retry counter goes up by one) and copies the account's
    credentials to the client. *)
Theorem reconnect_during_call :
  forall (C : Constants) (res : RegisteredEvent.t) (now : Z) (w : World)
         (call : CallSession.t),
    awaitsReconnect (cs (this w)) = true ->
    _currentSession (cs (this w)) = Some call ->
    registrationThrows (cs (this w)) res = false ->
    let c := cs (this w) in
    let r := _onRegistered C res now w in
    let c' := cs (this (world r)) in
    isLoggedIn c' = true
    /\ statsSocket c' = Some 0%nat
    /\ networkReconnectionTimestamp c' = Some now
    /\ fetchIpCount (this (world r)) = fetchIpCount (this w) + 1
    /\ userName c' = Credentials.userName (credentials (this w))
    /\ password c' = Credentials.password (credentials (this w))
    /\ filter notSetExpiry (effects r)
       = (if isCallMuted c then [StartSpeechRecognition] else [])
         ++ [Emit (onConnectionChange (mkConnectionInfo CONNECTED "registered"));
             ClearInterval (networkChangeInterval c);
             StartPingPong (NETWORK_CHANGE_INTERVAL_ON_CALL_STATE C)
               (MESSAGE_CHECK_TIMEOUT_ON_CALL_STATE C)]
         ++ (if isSome (statsSocket c) then [StatsSocket_disconnect] else [])
         ++ [NewStatsSocket; StatsSocket_connect; FetchIPAddress NetworkChangeEvent].
Proof.
  intros C [[hs]] now w call Hwait Hcall Hthrows. open_world w.
  unfold awaitsReconnect, registrationThrows, emptyJwtHeader in Hwait, Hthrows.
  cbn in Hwait, Hcall, Hthrows. subst current.
  destruct logged; [discriminate|]. destruct loginCalled; [discriminate|].
  unfold notSetExpiry, _onRegistered, _onRegistered_login, tiggerNetworkChangeEvent.
  cbn [cs this isAccessToken RegisteredEvent.response headers].
  destruct token.
  - destruct (getHeader "X-Plivo-Jwt" hs) as [[|h rest]|] eqn:Hh; [discriminate | |].
    + destruct (expiryTimeInEpoch_first h rest) as (segment & more & _ & Hv).
      destruct muted, callback, stats; run_handler;
        rewrite Hv; cbn; repeat split; reflexivity.
    + destruct muted, callback, stats; run_handler; repeat split; reflexivity.
  - destruct muted, callback, stats; run_handler; repeat split; reflexivity.
Qed.

Lemma reconnect_during_call_witness :
  awaitsReconnect (cs (this callReconnectWorld)) = true
  /\ fetchIpCount (this (world (_onRegistered C0 plainResponse 8 callReconnectWorld))) = 1
  /\ effects (_onRegistered C0 plainResponse 8 callReconnectWorld)
     = [Emit (onConnectionChange (mkConnectionInfo CONNECTED "registered"));
        ClearInterval None;
        StartPingPong 2000 5000;
        StatsSocket_disconnect; NewStatsSocket; StatsSocket_connect;
        FetchIPAddress NetworkChangeEvent].
Proof.
  split; [reflexivity |].
  pose proof (reconnect_during_call C0 plainResponse 8 callReconnectWorld
                (callSessionIn "x" "stable" false) eq_refl eq_refl eq_refl) as H.
  cbv zeta in H. destruct H as (_ & _ & _ & Hcount & _ & _ & Htrace).
  split; [exact Hcount | exact Htrace].
Defined.

(** *** Unregistration and logout *)

Lemma onUnRegistered_run :
  forall (C : Constants) (now : Z) (w : World),
    let c := cs (this w) in
    let r := _onUnRegistered C now w in
    let c' := cs (this (world r)) in
    completion r = Normal tt
    /\ isLoggedIn c' = false
    /\ isLogoutCalled c' = false
    /\ (if isLogoutCalled c
        then userName c' = Js.Null /\ password c' = Js.Null
             /\ networkChangeInterval c' = None
             /\ networkDisconnectedTimestamp c' = Some now
             /\ message (this (world r)) = None
        else userName c' = userName c /\ password c' = password c
             /\ networkChangeInterval c' = networkChangeInterval c
             /\ networkDisconnectedTimestamp c' = networkDisconnectedTimestamp c
             /\ message (this (world r)) = message (this w))
    /\ effects r
       = Emit (onConnectionChange (afterUnregistered (connectionInfo c)))
         :: (if isLogoutCalled c
             then (if playing (ringToneView c)
                   then [StopAudio (RINGTONE_ELEMENT_ID C)] else [])
                  ++ (if playing (ringBackToneView c)
                      then [StopAudio (RINGBACK_ELEMENT_ID C)] else [])
                  ++ [Emit onLogout]
                  ++ (if isSome (networkChangeInterval c)
                      then [ClearInterval (networkChangeInterval c)] else [])
                  ++ [ClearOnLogout; LogSend]
             else []).
Proof.
  intros C now w. open_world w. unfold afterUnregistered, playing.
  destruct st, logoutCalled, ring as [[[|]]|], ringback as [[[|]]|], interval;
    repeat split; reflexivity.
Qed.

(** X12. An [unregistered] event that no logout asked for is transient:
    besides marking the client logged out and reporting the connection
    state it changes nothing; the stored user name and password and the
    keep-alive timer stay, and no logout notification goes out. *)
Theorem unregistered_without_logout_is_transient :
  forall (C : Constants) (now : Z) (w : World),
    isLogoutCalled (cs (this w)) = false ->
    let c := cs (this w) in
    let r := _onUnRegistered C now w in
    let c' := cs (this (world r)) in
    isLoggedIn c' = false
    /\ userName c' = userName c
    /\ password c' = password c
    /\ networkChangeInterval c' = networkChangeInterval c
    /\ effects r = [Emit (onConnectionChange (afterUnregistered (connectionInfo c)))].
Proof.
  intros C now w Hlogout c r c'.
  destruct (onUnRegistered_run C now w) as (_ & Hin & _ & Hstate & Htrace).
  fold c r c' in Hin, Hstate, Htrace. subst c. rewrite Hlogout in Hstate, Htrace.
  destruct Hstate as (Hu & Hp & Hi & _). repeat split; assumption.
Qed.

Lemma unregistered_without_logout_is_transient_witness :
  isLogoutCalled (cs (this registeredWorld)) = false
  /\ effects (_onUnRegistered C0 5 registeredWorld)
     = [Emit (onConnectionChange (mkConnectionInfo DISCONNECTED "unregistered"))].
Proof.
  split; [reflexivity |].
  pose proof (unregistered_without_logout_is_transient C0 5 registeredWorld eq_refl)
    as H.
  cbv zeta in H. destruct H as (_ & _ & _ & _ & Htrace). exact Htrace.
Defined.

(** X13. An [unregistered] event after a logout request completes the
    logout: the stored user name and password are cleared, the time is
    recorded, the keep-alive timer is cancelled when there is one, a
    playing ringtone or ringback tone is stopped, one logout notification
    goes out after the connection change, the client's clean-up hook runs,
    and the logout request is consumed. *)
Theorem unregistered_completes_logout :
  forall (C : Constants) (now : Z) (w : World),
    isLogoutCalled (cs (this w)) = true ->
    let c := cs (this w) in
    let r := _onUnRegistered C now w in
    let c' := cs (this (world r)) in
    userName c' = Js.Null
    /\ password c' = Js.Null
    /\ networkChangeInterval c' = None
    /\ networkDisconnectedTimestamp c' = Some now
    /\ isLogoutCalled c' = false
    /\ effects r
       = [Emit (onConnectionChange (afterUnregistered (connectionInfo c)))]
         ++ (if playing (ringToneView c)
             then [StopAudio (RINGTONE_ELEMENT_ID C)] else [])
         ++ (if playing (ringBackToneView c)
             then [StopAudio (RINGBACK_ELEMENT_ID C)] else [])
         ++ [Emit onLogout]
         ++ (if isSome (networkChangeInterval c)
             then [ClearInterval (networkChangeInterval c)] else [])
         ++ [ClearOnLogout; LogSend].
Proof.
  intros C now w Hlogout c r c'.
  destruct (onUnRegistered_run C now w) as (_ & _ & Hflag & Hstate & Htrace).
  fold c r c' in Hflag, Hstate, Htrace. subst c. rewrite Hlogout in Hstate, Htrace.
  destruct Hstate as (Hu & Hp & Hi & Ht & _). repeat split; assumption.
Qed.

Lemma unregistered_completes_logout_witness :
  isLogoutCalled (cs (this logoutWorld)) = true
  /\ effects (_onUnRegistered C0 9 logoutWorld)
     = [Emit (onConnectionChange (mkConnectionInfo DISCONNECTED "unregistered"));
        StopAudio "plivo_ringtone"; Emit onLogout; ClearInterval (Some 4%nat);
        ClearOnLogout; LogSend].
Proof.
  split; [reflexivity |].
  pose proof (unregistered_completes_logout C0 9 logoutWorld eq_refl) as H.
  cbv zeta in H. destruct H as (_ & _ & _ & _ & _ & Htrace). exact Htrace.
Defined.

Lemma onLogoutCount_app :
  forall t1 t2 : list Effect,
    onLogoutCount (t1 ++ t2) = (onLogoutCount t1 + onLogoutCount t2)%nat.
Proof.
  intros t1 t2. unfold onLogoutCount. now rewrite filter_app, length_app.
Qed.

Lemma onUnRegistered_logout_count :
  forall (C : Constants) (now : Z) (w : World),
    onLogoutCount (effects (_onUnRegistered C now w))
    = (if isLogoutCalled (cs (this w)) then 1 else 0)%nat.
Proof.
  intros C now w.
  destruct (onUnRegistered_run C now w) as (_ & _ & _ & _ & Htrace).
  cbv zeta in Htrace. rewrite Htrace.
  destruct (isLogoutCalled (cs (this w))); [|reflexivity].
  destruct (playing (ringToneView (cs (this w)))),
    (playing (ringBackToneView (cs (this w)))),
    (isSome (networkChangeInterval (cs (this w)))); reflexivity.
Qed.

(** X14. However many [unregistered] events follow one logout request,
    the logout notification goes out once: over a run of [unregistered]
    events that is not empty, [onLogout] is emitted once when a logout was
    requested at the start and never otherwise. *)
Theorem logout_notified_once :
  forall (C : Constants) (nows : list Z) (w : World),
    onLogoutCount (effects (unregistrations C nows w))
    = (if isLogoutCalled (cs (this w)) && negb (Nat.eqb (List.length nows) 0)
       then 1 else 0)%nat.
Proof.
  intros C nows. unfold unregistrations.
  induction nows as [|now nows IH]; intros w.
  - cbn. now rewrite andb_false_r.
  - cbn [map List.length Nat.eqb negb]. rewrite andb_true_r.
    rewrite sequence_effects, onLogoutCount_app, IH, onUnRegistered_logout_count.
    destruct (onUnRegistered_run C now w) as (_ & _ & Hflag & _).
    cbv zeta in Hflag. rewrite Hflag. cbn [andb].
    destruct (isLogoutCalled (cs (this w))); reflexivity.
Qed.

(** *** Registration failure *)

(** X15. A [registrationFailed] event that is not stale logs the client
    out, clears the stored user name and password, and emits exactly one
    [onLoginFailed].  The reason is the event's cause when the cause is
    not empty and the error code is 401 (the code taken when the response
    or its [X-Plivo-Jwt-Error-Code] header is missing), and then the
    keep-alive timer is left running; in every other case the timer is
    cancelled and the reason is the fixed relogin message for an
    access-token generator and the client's text for the code otherwise. *)
Theorem registrationFailed_logs_out :
  forall (errorString : Js.number -> string)
         (error : RegistrationFailedEvent.t) (w : World),
    staleFailure (cs (this w)) = false ->
    let c := cs (this w) in
    let r := _onRegistrationFailed errorString error w in
    let c' := cs (this (world r)) in
    let surfaced :=
      match RegistrationFailedEvent.cause error with
      | Some cause =>
          if Js.truthy_string cause && Js.strict_eq_int (errorCodeOf error) 401
          then Some cause else None
      | None => None
      end in
    completion r = Normal tt
    /\ isLoggedIn c' = false
    /\ userName c' = Js.Null
    /\ password c' = Js.Null
    /\ match surfaced with
       | Some cause =>
           effects r = [Emit (onLoginFailed cause)]
           /\ networkChangeInterval c' = networkChangeInterval c
       | None =>
           effects r
           = [ClearInterval (networkChangeInterval c);
              Emit (onLoginFailed
                      (if isAccessTokenGenerator c then "RELOGIN_FAILED_INVALID_TOKEN"
                       else errorString (errorCodeOf error)))]
           /\ networkChangeInterval c' = None
       end.
Proof.
  intros g [cause response] w Hstale. open_world w.
  unfold staleFailure in Hstale. cbn in Hstale.
  unfold _onRegistrationFailed, registrationFailed_other. run_handler.
  rewrite Hstale. cbn.
  destruct cause as [cause|]; cbn;
    [destruct (Js.truthy_string cause && Js.strict_eq_int _ 401); cbn |];
    repeat split; reflexivity.
Qed.

Lemma registrationFailed_logs_out_witness :
  staleFailure (cs (this registeredWorld)) = false
  /\ effects (_onRegistrationFailed errorString0 failure403 registeredWorld)
     = [Emit (onLoginFailed "Rejected")]
  /\ effects (_onRegistrationFailed errorString0 (failureWithCode "403") registeredWorld)
     = [ClearInterval None; Emit (onLoginFailed "error")].
Proof.
  split; [reflexivity |].
  pose proof (registrationFailed_logs_out errorString0 failure403 registeredWorld eq_refl)
    as H1.
  pose proof (registrationFailed_logs_out errorString0 (failureWithCode "403")
                registeredWorld eq_refl) as H2.
  cbv zeta in H1, H2.
  destruct H1 as (_ & _ & _ & _ & H1). destruct H2 as (_ & _ & _ & _ & H2).
  split; [exact (proj1 H1) | exact (proj1 H2)].
Defined.

(** *** Network-change trigger: the retry loop *)

Lemma unresolved_run :
  forall (C : Constants) (k : nat) (w : World),
    fetchIpCount (this w) + Z.of_nat k < IP_ADDRESS_FETCH_RETRY_COUNT C ->
    let r := activations C (repeat unresolved k) w in
    fetchIpCount (this (world r)) = fetchIpCount (this w) + Z.of_nat k
    /\ effects r = retries (fetchIpCount (this w)) k.
Proof.
  intros C k. unfold activations.
  induction k as [|k IH]; intros w Hlt.
  - cbn. split; [lia | reflexivity].
  - cbn [repeat map]. rewrite sequence_world, sequence_effects.
    assert (Hne : fetchIpCount (this w) + 1 <> IP_ADDRESS_FETCH_RETRY_COUNT C) by lia.
    rewrite (activation_unresolved C w Hne). cbn [world effects].
    assert (Hcount : fetchIpCount (this (withFetchIpCount (fetchIpCount (this w) + 1) w))
                     = fetchIpCount (this w) + 1)
      by (destruct w as [i a]; destruct a; reflexivity).
    destruct (IH (withFetchIpCount (fetchIpCount (this w) + 1) w)) as (Hc & He);
      [rewrite Hcount; lia |].
    rewrite Hc, He, Hcount. split; [lia | reflexivity].
Qed.

(** X16. Started with the counter at 0, the retry loop is bounded by the
    ceiling: while the address cannot be found, the [k]-th activation
    leaves the counter at [k] and schedules the next one [k * 200] ms
    later, as long as [k] is below the ceiling; the activation that
    reaches the ceiling schedules nothing and puts the counter back to 0.
    No network-change event is sent. *)
Theorem retry_loop_gives_up_at_ceiling :
  forall (C : Constants) (k : nat) (w : World),
    Z.of_nat k < IP_ADDRESS_FETCH_RETRY_COUNT C ->
    let before := activations C (repeat unresolved k) (withFetchIpCount 0 w) in
    let last := activations C (repeat unresolved (Z.to_nat (IP_ADDRESS_FETCH_RETRY_COUNT C)))
                  (withFetchIpCount 0 w) in
    fetchIpCount (this (world before)) = Z.of_nat k
    /\ effects before = retries 0 k
    /\ fetchIpCount (this (world last)) = 0
    /\ effects last
       = retries 0 (Z.to_nat (IP_ADDRESS_FETCH_RETRY_COUNT C) - 1)
         ++ [FetchIPAddress NetworkChangeEvent].
Proof.
  intros C k w Hk before last.
  assert (H0 : fetchIpCount (this (withFetchIpCount 0 w)) = 0)
    by (destruct w as [i a]; destruct a; reflexivity).
  destruct (unresolved_run C k (withFetchIpCount 0 w)) as (Hc & He);
    [rewrite H0; lia |].
  fold before in Hc, He. rewrite H0 in Hc, He.
  split; [exact Hc | split; [exact He |]].
  subst last. unfold activations.
  set (n := Z.to_nat (IP_ADDRESS_FETCH_RETRY_COUNT C)).
  assert (Hn : repeat unresolved n = repeat unresolved (n - 1) ++ [unresolved]).
  { replace n with (n - 1 + 1)%nat at 1 by (subst n; lia). now rewrite repeat_app. }
  rewrite Hn, map_app.
  rewrite sequence_app_world, sequence_app_effects.
  fold (activations C (repeat unresolved (n - 1)) (withFetchIpCount 0 w)).
  destruct (unresolved_run C (n - 1) (withFetchIpCount 0 w)) as (Hc' & He');
    [rewrite H0; subst n; lia |].
  rewrite H0 in Hc', He'.
  set (w1 := world (activations C (repeat unresolved (n - 1)) (withFetchIpCount 0 w))) in *.
  rewrite He'. cbn [repeat map]. rewrite sequence_world, sequence_effects.
  assert (Hlast : fetchIpCount (this w1) + 1 = IP_ADDRESS_FETCH_RETRY_COUNT C)
    by (rewrite Hc'; subst n; lia).
  rewrite (activation_gives_up C w1 Hlast). cbn [world effects sequence ret].
  split; [destruct w1 as [i a]; destruct a; reflexivity |].
  now rewrite app_nil_r.
Qed.

Lemma retry_loop_gives_up_at_ceiling_witness :
  fetchIpCount (this (world (activations C0 (repeat unresolved 2) world0))) = 2
  /\ effects (activations C0 (repeat unresolved 2) world0)
     = [FetchIPAddress NetworkChangeEvent; SetTimeout NetworkChangeRetry 200;
        FetchIPAddress NetworkChangeEvent; SetTimeout NetworkChangeRetry 400]
  /\ fetchIpCount (this (world (activations C0 (repeat unresolved 3) world0))) = 0.
Proof.
  assert (Hk : Z.of_nat 2 < IP_ADDRESS_FETCH_RETRY_COUNT C0) by (cbn; lia).
  pose proof (retry_loop_gives_up_at_ceiling C0 2 world0 Hk) as H.
  cbv zeta in H. destruct H as (H1 & H2 & H3 & _).
  split; [exact H1 | split; [exact H2 | exact H3]].
Defined.

(** X17. When the address is found after [k] failed activations that
    stayed below the ceiling, the network-change event is sent once, with
    that address, and nothing more is scheduled; the counter stays at the
    number of activations made. *)
Theorem retry_loop_reports_once :
  forall (C : Constants) (k : nat) (address : string) (w : World),
    Z.of_nat k < IP_ADDRESS_FETCH_RETRY_COUNT C ->
    let r := activations C (repeat unresolved k ++ [Fulfilled (Js.Str address)])
               (withFetchIpCount 0 w) in
    fetchIpCount (this (world r)) = Z.of_nat k + 1
    /\ effects r
       = retries 0 k
         ++ [FetchIPAddress NetworkChangeEvent; SendNetworkChangeEvent address].
Proof.
  intros C k address w Hk r. subst r. unfold activations.
  assert (H0 : fetchIpCount (this (withFetchIpCount 0 w)) = 0)
    by (destruct w as [i a]; destruct a; reflexivity).
  rewrite map_app, sequence_app_world, sequence_app_effects.
  fold (activations C (repeat unresolved k) (withFetchIpCount 0 w)).
  destruct (unresolved_run C k (withFetchIpCount 0 w)) as (Hc & He);
    [rewrite H0; lia |].
  rewrite H0 in Hc, He.
  set (w1 := world (activations C (repeat unresolved k) (withFetchIpCount 0 w))) in *.
  rewrite He. cbn [map]. rewrite sequence_world, sequence_effects.
  rewrite activation_resolved. cbn [world effects sequence ret].
  rewrite app_nil_r. split; [| reflexivity].
  assert (Hset : fetchIpCount (this (withFetchIpCount (fetchIpCount (this w1) + 1) w1))
                 = fetchIpCount (this w1) + 1)
    by (destruct w1 as [i a]; destruct a; reflexivity).
  rewrite Hset, Hc. lia.
Qed.

Lemma retry_loop_reports_once_witness :
  effects (activations C0 [unresolved; Fulfilled (Js.Str "198.51.100.2")] world0)
  = [FetchIPAddress NetworkChangeEvent; SetTimeout NetworkChangeRetry 200;
     FetchIPAddress NetworkChangeEvent; SendNetworkChangeEvent "198.51.100.2"].
Proof.
  assert (Hk : Z.of_nat 1 < IP_ADDRESS_FETCH_RETRY_COUNT C0) by (cbn; lia).
  pose proof (retry_loop_reports_once C0 1 "198.51.100.2" world0 Hk) as H.
  cbv zeta in H. exact (proj2 H).
Defined.

(** *** Admission *)

(** X18. What an accepted session means: [_validateRTCSession] returns
    [true] exactly when, after its clean-up, the pending invites are fewer
    than the ceiling and either multiplexing is enabled or there is
    neither a primary session nor a pending invite. *)
Theorem accepted_means_room_for_the_call :
  forall (C : Constants) (w : World),
    let r := _validateRTCSession C w in
    let c' := cs (this (world r)) in
    completion r = Normal true
    <-> (Map_size (incomingInvites c') < NUMBER_OF_SIMULTANEOUS_INCOMING_CALLS_ALLOWED C
         /\ (allowMultipleIncomingCalls (options c') = true
             \/ (_currentSession c' = None /\ incomingInvites c' = []))).
Proof.
  intros C w r c'. subst r c'. rewrite validateRTCSession_run. cbn [completion world].
  assert (Hcs : cs (this (mkWorld (urlIndex w)
                            (set_cs (atDecision (cs (this w))) (this w))))
                = atDecision (cs (this w)))
    by (destruct w as [i a]; destruct a; reflexivity).
  rewrite Hcs. set (c := atDecision (cs (this w))).
  unfold admissionRejects, Map_size.
  pose proof (Nat2Z.is_nonneg (List.length (incomingInvites c))) as Hn.
  assert (Hnil : incomingInvites c = []
                 <-> Z.of_nat (List.length (incomingInvites c)) = 0).
  { destruct (incomingInvites c); cbn; split; intros H;
      try reflexivity; try discriminate H; lia. }
  destruct (_currentSession c) as [s|];
    destruct (allowMultipleIncomingCalls (options c));
    destruct (Z.leb_spec (NUMBER_OF_SIMULTANEOUS_INCOMING_CALLS_ALLOWED C)
                (Z.of_nat (List.length (incomingInvites c)))) as [Hfull|Hroom];
    destruct (Z.ltb_spec 0 (Z.of_nat (List.length (incomingInvites c)))) as [Hsome|Hnone];
    cbn [isSome orb andb negb];
    (split;
     [ intros H; try discriminate H;
       (split; [lia | first [ left; reflexivity
                            | right; split; [reflexivity | apply Hnil; lia] ]])
     | intros [H1 [H2 | [H2 H3]]];
       first [ reflexivity | discriminate | exfalso; lia
             | exfalso; apply Hnil in H3; lia ] ]).
Qed.

Lemma forEach_deleteEnded_incl :
  forall (todo m : InviteMap),
    incl (forEach_deleteEnded todo m) m
    /\ (List.length (forEach_deleteEnded todo m) <= List.length m)%nat.
Proof.
  induction todo as [|[k invite] rest IH]; intros m.
  - cbn. split; [apply incl_refl | lia].
  - cbn [forEach_deleteEnded].
    destruct (Map_has k m); [| apply IH].
    destruct (isEnded (CallSession.session invite)); [| apply IH].
    destruct (IH (Map_delete (CallSession.callUUID invite) m)) as (Hincl & Hlen).
    split.
    + eapply incl_tran; [exact Hincl |]. unfold Map_delete. apply incl_filter.
    + etransitivity; [exact Hlen |]. unfold Map_delete. apply filter_length_le.
Qed.

(** X19. The clean-up of [_validateRTCSession] only removes: every invite
    pending afterwards was pending before, whatever the keys are, and the
    user agent, the options and the login state are not touched. *)
Theorem validation_only_removes_invites :
  forall (C : Constants) (w : World),
    let c := cs (this w) in
    let c' := cs (this (world (_validateRTCSession C w))) in
    incl (incomingInvites c') (incomingInvites c)
    /\ Map_size (incomingInvites c') <= Map_size (incomingInvites c)
    /\ options c' = options c
    /\ phone c' = phone c
    /\ isLoggedIn c' = isLoggedIn c
    /\ urlIndex (world (_validateRTCSession C w)) = urlIndex w.
Proof.
  intros C w c c'. subst c c'. rewrite validateRTCSession_run. cbn [world].
  destruct w as [i a]. destruct a as [c ? ? ? ? ? ? ?]. cbn.
  unfold atDecision, purgeEndedInvites, dropStalePrimary.
  destruct (primaryIsStale c); cbn;
    match goal with
    | |- context [negb ?b] => destruct (negb b)
    end; cbn;
    try (destruct (forEach_deleteEnded_incl (incomingInvites c) (incomingInvites c))
          as (Hincl & Hlen));
    unfold Map_size; repeat split; try reflexivity; try assumption;
      try apply incl_refl; try lia.
Qed.

Lemma primaryIsStale_atDecision :
  forall c : Client, primaryIsStale (atDecision c) = false.
Proof.
  intros c.
  destruct (purgeEndedInvites_frame (dropStalePrimary c)) as (Hcur & _).
  unfold atDecision, primaryIsStale. rewrite Hcur.
  unfold dropStalePrimary.
  destruct (primaryIsStale c) eqn:Hstale; [reflexivity | exact Hstale].
Qed.

Lemma forallb_filter_same :
  forall (A : Type) (f : A -> bool) (l : list A), forallb f (filter f l) = true.
Proof.
  intros A f l. induction l as [|a l IH]; [reflexivity|].
  cbn. destruct (f a) eqn:Hf; [cbn; now rewrite Hf | exact IH].
Qed.

(** X20. Validation is idempotent on well-keyed invites: validating again
    right away reaches the same decision, sends the same answer and leaves
    the world it found. *)
Theorem validation_is_idempotent :
  forall (C : Constants) (w : World),
    wellKeyed (incomingInvites (cs (this w))) ->
    let r := _validateRTCSession C w in
    _validateRTCSession C (world r) = r.
Proof.
  intros C w Hkeyed r. subst r. rewrite !validateRTCSession_run. cbn [world].
  assert (Hcs : cs (this (mkWorld (urlIndex w)
                            (set_cs (atDecision (cs (this w))) (this w))))
                = atDecision (cs (this w)))
    by (destruct w as [i a]; destruct a; reflexivity).
  rewrite Hcs.
  assert (Hclean : atDecision (atDecision (cs (this w))) = atDecision (cs (this w))).
  { apply atDecision_clean; [apply primaryIsStale_atDecision |].
    unfold atDecision at 1. rewrite purgeEndedInvites_filter.
    - apply forallb_filter_same.
    - destruct (dropStalePrimary_frame (cs (this w))) as (Hinv & _).
      now rewrite Hinv. }
  rewrite Hclean. destruct w as [i a]. destruct a. reflexivity.
Qed.

Lemma validation_is_idempotent_witness :
  wellKeyed (incomingInvites (cs (this twoInvitesWorld)))
  /\ incomingInvites (cs (this (world (_validateRTCSession C0 twoInvitesWorld))))
     = [("b", callSessionIn "b" "stable" false)]
  /\ _validateRTCSession C0 (world (_validateRTCSession C0 twoInvitesWorld))
     = _validateRTCSession C0 twoInvitesWorld.
Proof.
  assert (Hk : wellKeyed (incomingInvites (cs (this twoInvitesWorld)))).
  { split; [repeat constructor; cbn; intuition discriminate | repeat constructor]. }
  split; [exact Hk | split; [reflexivity |]].
  exact (validation_is_idempotent C0 twoInvitesWorld Hk).
Defined.

(** *** Runs of events *)

Lemma lift_run :
  forall (A : Type) (m : M A) (s : Whole),
    result (lift m s) = completion (m (core s))
    /\ whole (lift m s) = mkWhole (world (m (core s))) (net s)
    /\ trace (lift m s) = map Core (effects (m (core s))).
Proof.
  intros A m s. unfold lift. destruct (m (core s)). repeat split; reflexivity.
Qed.

Lemma callbackCalls_Core :
  forall t : list Effect,
    filter isCallbackCall (map Core t) = map Core (filter isInvokeLoginCallback t).
Proof.
  induction t as [|e t IH]; [reflexivity|].
  cbn. destruct e; cbn; rewrite IH; reflexivity.
Qed.

Lemma initialFetch_Core :
  forall t : list Effect, filter isInitialFetch (map Core t) = [].
Proof.
  induction t as [|e t IH]; [reflexivity | exact IH].
Qed.

Lemma onRegistered_keepsTransport :
  forall (C : Constants) (res : RegisteredEvent.t) (now : Z),
    keepsTransport (_onRegistered C res now).
Proof.
  intros C [[hs]] now w. open_world w.
  unfold _onRegistered, _onRegistered_login, tiggerNetworkChangeEvent.
  cbn [cs this isAccessToken RegisteredEvent.response headers].
  destruct token.
  - destruct (getHeader "X-Plivo-Jwt" hs) as [[|h rest]|] eqn:Hh.
    + destruct current, muted, callback, logged, loginCalled; run_handler;
        repeat split; auto.
    + destruct (expiryTimeInEpoch_first h rest) as (segment & more & _ & Hv).
      destruct current, muted, callback, logged, loginCalled, stats; run_handler;
        rewrite Hv; cbn; repeat split; auto.
    + destruct current, muted, callback, logged, loginCalled, stats; run_handler;
        repeat split; auto.
  - destruct current, muted, callback, logged, loginCalled, stats; run_handler;
      repeat split; auto.
Qed.

Lemma onUnRegistered_keepsTransport :
  forall (C : Constants) (now : Z), keepsTransport (_onUnRegistered C now).
Proof.
  intros C now w. open_world w.
  destruct st, logoutCalled, ring as [[[|]]|], ringback as [[[|]]|], interval;
    repeat split; auto.
Qed.

Lemma onRegistrationFailed_keepsTransport :
  forall (g : Js.number -> string) (error : RegistrationFailedEvent.t),
    keepsTransport (_onRegistrationFailed g error).
Proof.
  intros g [cause response] w. open_world w.
  unfold _onRegistrationFailed, registrationFailed_other. run_handler.
  destruct (ConnectionState_eqb st DISCONNECTED && logged); cbn;
    [repeat split; auto |].
  destruct cause as [cause|]; cbn;
    [destruct (Js.truthy_string cause && Js.strict_eq_int _ 401); cbn |];
    repeat split; auto.
Qed.

Lemma atDecision_frame :
  forall c : Client,
    options (atDecision c) = options c
    /\ loginCallback (atDecision c) = loginCallback c.
Proof.
  intros c. unfold atDecision, purgeEndedInvites, dropStalePrimary.
  destruct (primaryIsStale c); cbn;
    match goal with |- context [negb ?b] => destruct (negb b) end;
    split; reflexivity.
Qed.

Lemma onNewRTCSession_keepsTransport :
  forall (C : Constants) (evt : NewRTCSessionEvent.t) (now : Z),
    keepsTransport (_onNewRTCSession C evt now).
Proof.
  intros C evt now w.
  destruct (atDecision_frame (cs (this w))) as (Hopts & Hcb).
  unfold _onNewRTCSession.
  destruct (NewRTCSessionEvent.originator evt);
    unfold bind, call, ret, modifyCs, modifyThis; cbn;
    rewrite validateRTCSession_run;
    destruct (admissionRejects C (atDecision (cs (this w)))); cbn;
    destruct w as [i a]; destruct a; cbn in *;
    repeat split; auto.
Qed.

Lemma onDisconnected_connected_flag :
  forall (C : Constants) (evt : DisconnectedEvent.t) (w : World),
    isPlivoSocketConnected (this (world (_onDisconnected C evt w))) = false.
Proof.
  intros C [code ignore] w. open_world w.
  unfold _onDisconnected, setupUAConfig, sendReInvite. run_handler.
  destruct code as [[|p|p]|], connected, callback, ignore; cbn;
    try (destruct (List.length _ <=? S cursor)%nat; cbn);
    try (destruct ua; cbn);
    try (destruct current; cbn);
    reflexivity.
Qed.

(** One event: what it does to the cursor, the endpoint options, the
    socket flag, the pending login and the first address request. *)
Lemma deliver_summary :
  forall (C : Constants) (g : Js.number -> string) (e : Event) (s : Whole),
    let r := deliver C g e s in
    let c := cs (this (core s)) in
    let c' := cs (this (core (whole r))) in
    urlIndex (core (whole r)) = cursorAfter C e (core s)
    /\ options c' = options c
    /\ (List.length (filter isCallbackCall (trace r))
        + (if isSome (loginCallback c') then 1 else 0)
        <= (if isSome (loginCallback c) then 1 else 0))%nat
    /\ isPlivoSocketConnected (this (core (whole r)))
       = match e with
         | Connected => true
         | Disconnected _ => false
         | _ => isPlivoSocketConnected (this (core s))
         end
    /\ List.length (filter isInitialFetch (trace r))
       = (if isConnected e && negb (isPlivoSocketConnected (this (core s)))
             && negb (didFetchInitialNetworkInfo (net s))
          then 1 else 0)%nat
    /\ didFetchInitialNetworkInfo (net (whole r))
       = didFetchInitialNetworkInfo (net s)
         || (isConnected e && negb (isPlivoSocketConnected (this (core s)))).
Proof.
  intros C g e s r c c'. subst r c c'.
  assert (Hkeep : forall m : M unit,
             keepsTransport m ->
             let r := lift m s in
             urlIndex (core (whole r)) = urlIndex (core s)
             /\ options (cs (this (core (whole r)))) = options (cs (this (core s)))
             /\ (List.length (filter isCallbackCall (trace r))
                 + (if isSome (loginCallback (cs (this (core (whole r))))) then 1 else 0)
                 <= (if isSome (loginCallback (cs (this (core s)))) then 1 else 0))%nat
             /\ isPlivoSocketConnected (this (core (whole r)))
                = isPlivoSocketConnected (this (core s))
             /\ List.length (filter isInitialFetch (trace r)) = 0%nat
             /\ didFetchInitialNetworkInfo (net (whole r))
                = didFetchInitialNetworkInfo (net s)).
  { intros m Hm r.
    destruct (lift_run unit m s) as (_ & Hwhole & Htrace). fold r in Hwhole, Htrace.
    destruct (Hm (core s)) as (H1 & H2 & H3 & H4 & H5).
    rewrite Hwhole, Htrace. cbn [core net].
    rewrite callbackCalls_Core, initialFetch_Core, H4. cbn.
    repeat split; try assumption.
    destruct H5 as [-> | ->]; cbn;
      [destruct (isSome (loginCallback (cs (this (core s))))); lia | lia]. }
  destruct e as [|evt|res now|now|error|evt now|evt now];
    cbn [deliver cursorAfter isConnected andb].
  - (* connected *)
    destruct s as [w [retry fetched info times]]. open_world w.
    unfold _onConnected, bindW, whenW, lift, getNet, modifyNet, callW, retW,
      getThis, call, modifyThis.
    destruct retry, connected, fetched; cbn;
      destruct callback; cbn; repeat split; lia.
  - (* disconnected *)
    destruct (lift_run unit (_onDisconnected C evt) s) as (_ & Hwhole & Htrace).
    destruct (onDisconnected_state C evt (core s)) as (_ & Hslot & Hcalls & Hopts & Hidx).
    rewrite Hwhole, Htrace. cbn [core net].
    rewrite callbackCalls_Core, initialFetch_Core, Hcalls, Hslot, Hopts, Hidx,
      onDisconnected_connected_flag, orb_false_r.
    repeat split.
    destruct (loginCallback (cs (this (core s)))); cbn; lia.
  - destruct (Hkeep _ (onRegistered_keepsTransport C res now))
      as (H1 & H2 & H3 & H4 & H5 & H6).
    rewrite orb_false_r. repeat split; assumption.
  - destruct (Hkeep _ (onUnRegistered_keepsTransport C now))
      as (H1 & H2 & H3 & H4 & H5 & H6).
    rewrite orb_false_r. repeat split; assumption.
  - destruct (Hkeep _ (onRegistrationFailed_keepsTransport g error))
      as (H1 & H2 & H3 & H4 & H5 & H6).
    rewrite orb_false_r. repeat split; assumption.
  - (* newTransaction *)
    destruct s as [w [retry fetched info times]]. destruct evt as [kind callId uuid].
    unfold _onNewTransaction, bindW, whenW, lift, modifyNet, callW, retW, call.
    cbn [TransactionEvent.type].
    destruct (String.eqb kind "ist"); cbn; rewrite orb_false_r;
      destruct (loginCallback (cs (this w))); cbn; repeat split; lia.
  - destruct (Hkeep _ (onNewRTCSession_keepsTransport C evt now))
      as (H1 & H2 & H3 & H4 & H5 & H6).
    rewrite orb_false_r. repeat split; assumption.
Qed.

Lemma deliverAll_cons :
  forall (C : Constants) (g : Js.number -> string) (e : Event) (es : list Event)
         (s : Whole),
    whole (deliverAll C g (e :: es) s)
    = whole (deliverAll C g es (whole (deliver C g e s)))
    /\ trace (deliverAll C g (e :: es) s)
       = trace (deliver C g e s)
         ++ trace (deliverAll C g es (whole (deliver C g e s))).
Proof.
  intros C g e es s. cbn [deliverAll].
  destruct (deliver C g e s) as [k s1 t1]. cbn [whole trace].
  destruct (deliverAll C g es s1). split; reflexivity.
Qed.

Lemma reconnectCount_cons :
  forall (C : Constants) (e : Event) (es : list Event) (w : World),
    cursorInRange C w ->
    ((urlIndex w + reconnectCount (e :: es)) mod List.length (wsServers C (cs (this w)))
     = (cursorAfter C e w + reconnectCount es) mod List.length (wsServers C (cs (this w))))%nat
    /\ (cursorAfter C e w < List.length (wsServers C (cs (this w))))%nat.
Proof.
  intros C e es w Hin. unfold cursorInRange in Hin. unfold reconnectCount.
  assert (Hlen : (List.length (wsServers C (cs (this w))) <> 0)%nat) by lia.
  destruct e as [|evt| | | | |]; cbn [filter cursorAfter]; try (split; [reflexivity | exact Hin]).
  destruct (DisconnectedEvent.ignoreReconnection evt); cbn [negb];
    [split; [reflexivity | exact Hin] |].
  rewrite (advance_is_mod _ _ Hin). cbn [List.length]. split.
  - rewrite Nat.Div0.add_mod_idemp_l. f_equal. lia.
  - apply Nat.mod_upper_bound. exact Hlen.
Qed.

(** X21. Over any run of events, in any order, the endpoint cursor moves
    only on the [disconnected] events that ask for a reconnection, one
    step each with wraparound: started inside the endpoint list it ends at
    [(cursor + reconnections) mod len], and the endpoint list itself is
    never changed. *)
Theorem cursor_counts_reconnections :
  forall (C : Constants) (g : Js.number -> string) (es : list Event) (s : Whole),
    cursorInRange C (core s) ->
    let s' := whole (deliverAll C g es s) in
    urlIndex (core s')
    = ((urlIndex (core s) + reconnectCount es)
       mod List.length (wsServers C (cs (this (core s)))))%nat
    /\ wsServers C (cs (this (core s'))) = wsServers C (cs (this (core s))).
Proof.
  intros C g es. induction es as [|e es IH]; intros s Hin.
  - cbn. unfold reconnectCount. cbn. rewrite Nat.add_0_r.
    split; [symmetry; apply Nat.mod_small; exact Hin | reflexivity].
  - destruct (deliverAll_cons C g e es s) as (Hwhole & _).
    destruct (deliver_summary C g e s) as (Hidx & Hopts & _).
    cbv zeta in Hidx, Hopts.
    pose proof (wsServers_options C _ _ Hopts) as Hws.
    destruct (reconnectCount_cons C e es (core s) Hin) as (Hmod & Hlt).
    cbv zeta. rewrite Hwhole.
    destruct (IH (whole (deliver C g e s))) as (IH1 & IH2).
    { unfold cursorInRange. rewrite Hws, Hidx. exact Hlt. }
    cbv zeta in IH1, IH2. rewrite IH1, IH2, Hws, Hidx.
    split; [symmetry; exact Hmod | reflexivity].
Qed.

Lemma cursor_counts_reconnections_witness :
  cursorInRange C0 (core whole0)
  /\ urlIndex
       (core (whole (deliverAll C0 errorString0
                       [Connected; Registered plainResponse 1;
                        Disconnected disconnect1006; Connected;
                        Disconnected teardown; Unregistered 4;
                        Disconnected disconnectWithoutCode;
                        NewRTCSession inboundInvite 6;
                        Disconnected disconnect1006;
                        Disconnected disconnect1006] whole0)))
     = 1%nat.
Proof.
  assert (Hin : cursorInRange C0 (core whole0))
    by (unfold cursorInRange, wsServers; cbn; lia).
  split; [exact Hin |].
  exact (proj1 (cursor_counts_reconnections C0 errorString0 _ whole0 Hin)).
Defined.

(** X22. A queued login callback runs at most once, whatever events
    arrive and in whatever order, and no event runs a callback when none
    is queued. *)
Theorem login_callback_runs_at_most_once :
  forall (C : Constants) (g : Js.number -> string) (es : list Event) (s : Whole),
    (List.length (filter isCallbackCall (trace (deliverAll C g es s)))
     <= (if isSome (loginCallback (cs (this (core s)))) then 1 else 0))%nat.
Proof.
  intros C g es.
  assert (H : forall s,
             (List.length (filter isCallbackCall (trace (deliverAll C g es s)))
              + (if isSome (loginCallback
                              (cs (this (core (whole (deliverAll C g es s))))))
                 then 1 else 0)
              <= (if isSome (loginCallback (cs (this (core s)))) then 1 else 0))%nat).
  { induction es as [|e es IH]; intros s.
    - cbn. lia.
    - destruct (deliverAll_cons C g e es s) as (Hwhole & Htrace).
      destruct (deliver_summary C g e s) as (_ & _ & Hcb & _).
      cbv zeta in Hcb. specialize (IH (whole (deliver C g e s))).
      rewrite Hwhole, Htrace, filter_app, length_app. lia. }
  intros s. specialize (H s). lia.
Qed.

Lemma initialFetch_after_fetched :
  forall (C : Constants) (g : Js.number -> string) (es : list Event) (s : Whole),
    didFetchInitialNetworkInfo (net s) = true ->
    List.length (filter isInitialFetch (trace (deliverAll C g es s))) = 0%nat.
Proof.
  intros C g es. induction es as [|e es IH]; intros s Hfetched; [reflexivity|].
  destruct (deliverAll_cons C g e es s) as (_ & Htrace).
  destruct (deliver_summary C g e s) as (_ & _ & _ & _ & Hcount & Hflag).
  cbv zeta in Hcount, Hflag.
  rewrite Htrace, filter_app, length_app, Hcount, Hfetched, andb_false_r.
  rewrite IH; [reflexivity |]. rewrite Hflag, Hfetched. reflexivity.
Qed.

(** X23. The public address is asked for at most once per client: over
    any run of events started with the socket marked disconnected, the
    first [connected] event asks for it if it was never asked for before,
    and no later event asks again, however often the socket reconnects. *)
Theorem initial_address_fetched_once :
  forall (C : Constants) (g : Js.number -> string) (es : list Event) (s : Whole),
    isPlivoSocketConnected (this (core s)) = false ->
    List.length (filter isInitialFetch (trace (deliverAll C g es s)))
    = (if negb (didFetchInitialNetworkInfo (net s)) && existsb isConnected es
       then 1 else 0)%nat.
Proof.
  intros C g es. induction es as [|e es IH]; intros s Hdown.
  - cbn. now rewrite andb_false_r.
  - destruct (deliverAll_cons C g e es s) as (_ & Htrace).
    destruct (deliver_summary C g e s) as (_ & _ & _ & Hflag & Hcount & Hfetched).
    cbv zeta in Hflag, Hcount, Hfetched.
    rewrite Htrace, filter_app, length_app, Hcount, Hdown. cbn [negb andb existsb].
    rewrite Hdown in Hfetched. cbn [negb] in Hfetched. rewrite andb_true_r in *.
    destruct (isConnected e) eqn:Hconn.
    + rewrite initialFetch_after_fetched
        by (rewrite Hfetched; apply orb_true_r).
      cbn [orb]. rewrite andb_true_r.
      destruct (didFetchInitialNetworkInfo (net s)); reflexivity.
    + rewrite orb_false_r in Hfetched. cbn [orb andb].
      rewrite IH.
      * now rewrite Hfetched.
      * rewrite Hflag. destruct e; try discriminate Hconn; try exact Hdown; reflexivity.
Qed.

Lemma initial_address_fetched_once_witness :
  isPlivoSocketConnected (this (core whole0)) = false
  /\ List.length
       (filter isInitialFetch
          (trace (deliverAll C0 errorString0
                    [Registered plainResponse 1; Connected;
                     Disconnected disconnect1006; Connected;
                     Disconnected disconnect1006; Connected] whole0)))
     = 1%nat.
Proof.
  split; [reflexivity |].
  exact (initial_address_fetched_once C0 errorString0 _ whole0 eq_refl).
Defined.
